(** * GitHub webhooks on a serverless gateway: provider lifecycle and ingestion

    A shallow embedding of [random.ts] (the secret generator) and of the
    webhook module (the [GithubWebhookProvider] dynamic provider and the
    route handler installed by the [GitHubWebhook] component), followed by
    the properties of the design document that are settled on it.

    Conventions of the embedding.
    - A JavaScript string is represented by its UTF-8 text ([string], a
      sequence of 8-bit characters), so [Buffer.from(s)] and
      [Buffer.from(s, "utf8")] are the bytes of [s].
    - A property bag ([any]-typed [olds], [news], [inputs], [props]) and the
      header table of a request are finite maps from names to values; reading
      an absent name gives [undefined].
    - [async] code runs in a small writer-and-exception monad: the trace
      records every externally visible action (remote API calls, HMAC
      computations, console output, JSON parsing, handler invocations) in
      program order, and a computation either returns or throws. *)

From Stdlib Require Import ZArith NArith List Lia.
From Stdlib.Strings Require Import String Ascii Byte.
From Stdlib Require QArith.
From stdpp Require Import base gmap strings list.

Local Open Scope string_scope.
Local Open Scope list_scope.

(** ** Bytes and text *)

Module Bytes.
Local Open Scope N_scope.

(** The byte with value [n mod 256]. *)
Definition of_N (n : N) : byte :=
  match Byte.of_N (n mod 256) with
  | Some b => b
  | None => x00
  end.

Definition string_of_bytes (bs : list byte) : string :=
  string_of_list_byte bs.

(** [Buffer.from(s)] / [Buffer.from(s, "utf8")]. *)
Definition of_string (s : string) : list byte :=
  list_byte_of_string s.

Fixpoint eqb (a b : list byte) : bool :=
  match a, b with
  | [], [] => true
  | x :: a', y :: b' => Byte.eqb x y && eqb a' b'
  | _, _ => false
  end.

Definition hex_alphabet : list ascii :=
  list_ascii_of_string "0123456789abcdef".

Definition hex_digit (n : N) : ascii :=
  nth (N.to_nat n) hex_alphabet "0"%char.

(** [buf.toString("hex")] / [hmac.digest("hex")]: two lower-case digits per
    byte. *)
Fixpoint hex (bs : list byte) : string :=
  match bs with
  | [] => EmptyString
  | b :: rest =>
      String (hex_digit (Byte.to_N b / 16))
        (String (hex_digit (Byte.to_N b mod 16)) (hex rest))
  end.

End Bytes.

(** ** Base64 (the text form of the generated secret) *)

Module Base64.
Local Open Scope N_scope.

Definition alphabet : list ascii :=
  list_ascii_of_string
    "ABCDEFGHIJKLMNOPQRSTUVWXYZabcdefghijklmnopqrstuvwxyz0123456789+/".

Definition pad : ascii := "="%char.

Definition digit (n : N) : ascii := nth (N.to_nat n) alphabet pad.

Fixpoint index_from (i : N) (c : ascii) (l : list ascii) : option N :=
  match l with
  | [] => None
  | x :: rest => if Ascii.eqb x c then Some i else index_from (N.succ i) c rest
  end.

Definition sextet (c : ascii) : option N := index_from 0 c alphabet.

(** [buf.toString("base64")]: three bytes give four digits, the last group
    is padded with [=]. *)
Fixpoint encode (bs : list byte) : string :=
  match bs with
  | [] => EmptyString
  | [a] =>
      let x := Byte.to_N a in
      String (digit (x / 4)) (String (digit ((x mod 4) * 16))
        (String pad (String pad EmptyString)))
  | [a; b] =>
      let x := Byte.to_N a in
      let y := Byte.to_N b in
      String (digit (x / 4)) (String (digit ((x mod 4) * 16 + y / 16))
        (String (digit ((y mod 16) * 4)) (String pad EmptyString)))
  | a :: b :: c :: rest =>
      let x := Byte.to_N a in
      let y := Byte.to_N b in
      let z := Byte.to_N c in
      String (digit (x / 4)) (String (digit ((x mod 4) * 16 + y / 16))
        (String (digit ((y mod 16) * 4 + z / 64))
          (String (digit (z mod 64)) (encode rest))))
  end.

(** Strict decoding of padded base64 text; [None] on malformed text. *)
Fixpoint decode (s : string) : option (list byte) :=
  match s with
  | EmptyString => Some []
  | String c1 (String c2 (String c3 (String c4 rest))) =>
      match sextet c1, sextet c2 with
      | Some s1, Some s2 =>
          let b1 := Bytes.of_N (s1 * 4 + s2 / 16) in
          if Ascii.eqb c3 pad then
            if Ascii.eqb c4 pad then
              match rest with EmptyString => Some [b1] | _ => None end
            else None
          else
            match sextet c3 with
            | Some s3 =>
                let b2 := Bytes.of_N ((s2 mod 16) * 16 + s3 / 4) in
                if Ascii.eqb c4 pad then
                  match rest with
                  | EmptyString => Some [b1; b2]
                  | _ => None
                  end
                else
                  match sextet c4 with
                  | Some s4 =>
                      let b3 := Bytes.of_N ((s3 mod 4) * 64 + s4) in
                      match decode rest with
                      | Some tl => Some (b1 :: b2 :: b3 :: tl)
                      | None => None
                      end
                  | None => None
                  end
            | None => None
            end
      | _, _ => None
      end
  | _ => None
  end.

End Base64.

(** ** SHA-1 and HMAC (Node's [crypto.createHmac("sha1", key)]) *)

Module Crypto.
Local Open Scope N_scope.

Definition w32 (x : N) : N := x mod 2 ^ 32.

Definition rotl32 (n x : N) : N :=
  N.lor (w32 (N.shiftl x n)) (N.shiftr x (32 - n)).

Definition not32 (x : N) : N := N.lxor x 4294967295.

(** Big-endian bytes of a word of [n] bytes. *)
Fixpoint be_bytes (n : nat) (x : N) : list N :=
  match n with
  | O => []
  | S k => (N.shiftr x (8 * N.of_nat k)) mod 256 :: be_bytes k x
  end.

(** Message padding: a [1] bit, zeros up to 56 modulo 64, then the bit
    length as a 64-bit big-endian integer. *)
Definition sha1_pad (msg : list N) : list N :=
  let len := length msg in
  let r := ((len + 1) mod 64)%nat in
  let k := (if r <=? 56 then 56 - r else 120 - r)%nat in
  msg ++ 128%N :: repeat 0%N k ++ be_bytes 8 (8 * N.of_nat len).

Fixpoint be_words (fuel : nat) (bs : list N) : list N :=
  match fuel, bs with
  | S f, a :: b :: c :: d :: rest =>
      (a * 16777216 + b * 65536 + c * 256 + d)%N :: be_words f rest
  | _, _ => []
  end.

Fixpoint schedule (n : nat) (w : list N) : list N :=
  match n with
  | O => w
  | S k =>
      let i := length w in
      let x :=
        N.lxor (N.lxor (nth (i - 3)%nat w 0) (nth (i - 8)%nat w 0))
               (N.lxor (nth (i - 14)%nat w 0) (nth (i - 16)%nat w 0)) in
      schedule k (w ++ [rotl32 1 x])
  end.

Definition sha1_state : Type := N * N * N * N * N.

Definition sha1_init : sha1_state :=
  (1732584193, 4023233417, 2562383102, 271733878, 3285377520)%N.

Definition sha1_step (st : sha1_state) (iw : nat * N) : sha1_state :=
  let '(a, b, c, d, e) := st in
  let '(i, w) := iw in
  let '(f, k) :=
    if (i <? 20)%nat then
      (N.lor (N.land b c) (N.land (not32 b) d), 1518500249%N)
    else if (i <? 40)%nat then (N.lxor (N.lxor b c) d, 1859775393%N)
    else if (i <? 60)%nat then
      (N.lor (N.lor (N.land b c) (N.land b d)) (N.land c d), 2400959708%N)
    else (N.lxor (N.lxor b c) d, 3395469782%N) in
  (w32 (rotl32 5 a + f + e + k + w), a, rotl32 30 b, c, d)%N.

Definition sha1_block (st : sha1_state) (block : list N) : sha1_state :=
  let w := schedule 64 (be_words 16 block) in
  let '(a, b, c, d, e) := fold_left sha1_step (combine (seq 0 80) w) st in
  let '(h0, h1, h2, h3, h4) := st in
  (w32 (h0 + a), w32 (h1 + b), w32 (h2 + c), w32 (h3 + d), w32 (h4 + e))%N.

Fixpoint sha1_blocks (fuel : nat) (st : sha1_state) (bs : list N)
  : sha1_state :=
  match fuel, bs with
  | S f, _ :: _ => sha1_blocks f (sha1_block st (firstn 64 bs)) (skipn 64 bs)
  | _, _ => st
  end.

Definition sha1 (msg : list byte) : list byte :=
  let padded := sha1_pad (map Byte.to_N msg) in
  let '(h0, h1, h2, h3, h4) :=
    sha1_blocks (length padded) sha1_init padded in
  map Bytes.of_N
    (be_bytes 4 h0 ++ be_bytes 4 h1 ++ be_bytes 4 h2 ++ be_bytes 4 h3
       ++ be_bytes 4 h4).

Definition xor_pad (p : N) (key : list byte) : list byte :=
  map (fun b => Bytes.of_N (N.lxor (Byte.to_N b) p)) key.

(** HMAC with a 64-byte block: a longer key is hashed first, a shorter one
    is padded with zeros. *)
Definition hmac_sha1 (key msg : list byte) : list byte :=
  let k0 := if (64 <? length key)%nat then sha1 key else key in
  let k := k0 ++ repeat x00 (64 - length k0)%nat in
  sha1 (xor_pad 92 k ++ sha1 (xor_pad 54 k ++ msg)).

End Crypto.

(** ** JavaScript values held in property bags *)

Module JS.

Import QArith.QArith_base.

Inductive JSNumber : Type :=
| NaN
| Infinity (negative : bool)
| Finite (q : Q).

(** The values a property of a bag can hold. An array has an identity
    ([ref]): [===] on arrays compares identities, not contents. *)
Inductive JSValue : Type :=
| JSUndefined
| JSNull
| JSBoolean (b : bool)
| JSNum (n : JSNumber)
| JSString (s : string)
| JSArray (ref : N) (items : list string).

(** An [Error] object: the constructor name and the message. *)
Record JSError : Type := mkError { err_name : string; err_message : string }.

(** A property bag; [bag[name]]. *)
Definition get (bag : gmap string JSValue) (name : string) : JSValue :=
  default JSUndefined (bag !! name).

(** ToBoolean. *)
Definition truthy (v : JSValue) : bool :=
  match v with
  | JSUndefined | JSNull => false
  | JSBoolean b => b
  | JSNum NaN => false
  | JSNum (Infinity _) => true
  | JSNum (Finite q) => negb (Qeq_bool q (Qmake 0 1))
  | JSString s => negb (String.eqb s EmptyString)
  | JSArray _ _ => true
  end.

Definition number_eq (m n : JSNumber) : bool :=
  match m, n with
  | Finite p, Finite q => Qeq_bool p q
  | Infinity a, Infinity b => Bool.eqb a b
  | _, _ => false
  end.

(** [v === w]. *)
Definition strict_eq (v w : JSValue) : bool :=
  match v, w with
  | JSUndefined, JSUndefined => true
  | JSNull, JSNull => true
  | JSBoolean a, JSBoolean b => Bool.eqb a b
  | JSNum m, JSNum n => number_eq m n
  | JSString s, JSString t => String.eqb s t
  | JSArray r _, JSArray r' _ => N.eqb r r'
  | _, _ => false
  end.

(** [v !== w]. *)
Definition strict_neq (v w : JSValue) : bool := negb (strict_eq v w).

(** The values a property declared [string], possibly optional, takes. *)
Definition text_or_undefined (v : JSValue) : Prop :=
  v = JSUndefined \/ exists s, v = JSString s.

(** [items.join(",")], the text of an array. *)
Definition join (items : list string) : string :=
  match items with
  | [] => EmptyString
  | x :: rest => fold_left (fun acc y => acc +:+ "," +:+ y) rest x
  end.

Section Conversions.

(** The numeric value of a text (the StringToNumber grammar of the
    language) and the text of a number are the runtime's. *)
Variable StringToNumber : string -> JSNumber.
Variable NumberToString : JSNumber -> string.

Definition ToNumber (v : JSValue) : JSNumber :=
  match v with
  | JSUndefined => NaN
  | JSNull => Finite (Qmake 0 1)
  | JSBoolean b => Finite (Qmake (if b then 1 else 0) 1)
  | JSNum n => n
  | JSString s => StringToNumber s
  | JSArray _ items => StringToNumber (join items)
  end.

(** The global [isNaN(v)]. *)
Definition isNaN (v : JSValue) : bool :=
  match ToNumber v with
  | NaN => true
  | _ => false
  end.

(** [v <= 0]: a comparison with [NaN] on either side is false. *)
Definition le_zero (v : JSValue) : bool :=
  match ToNumber v with
  | NaN => false
  | Infinity negative => negative
  | Finite q => Qle_bool q (Qmake 0 1)
  end.

(** The text substituted for [${v}] in a template literal. *)
Definition ToString (v : JSValue) : string :=
  match v with
  | JSUndefined => "undefined"
  | JSNull => "null"
  | JSBoolean b => if b then "true" else "false"
  | JSNum n => NumberToString n
  | JSString s => s
  | JSArray _ items => join items
  end.

End Conversions.

End JS.

(** ** Asynchronous computations with a trace *)

Module Async.

Import JS.

Inductive Completion (A : Type) : Type :=
| Returns (a : A)
| Throws (e : JSError).
Arguments Returns {A} a.
Arguments Throws {A} e.

(** The actions performed so far, oldest first, and how the computation
    completed. *)
Definition Async (E A : Type) : Type := list E * Completion A.

Definition ret {E A : Type} (a : A) : Async E A := ([], Returns a).

Definition throw {E A : Type} (e : JSError) : Async E A := ([], Throws e).

Definition emit {E : Type} (ev : E) : Async E unit := ([ev], Returns tt).

Definition bind {E A B : Type} (m : Async E A) (k : A -> Async E B)
  : Async E B :=
  match m with
  | (t, Returns a) => let '(t', r) := k a in (t ++ t', r)
  | (t, Throws e) => (t, Throws e)
  end.

(** An action whose result is decided outside the program. *)
Definition perform {E A : Type} (ev : E) (outcome : Completion A)
  : Async E A :=
  ([ev], outcome).

Definition trace {E A : Type} (m : Async E A) : list E := fst m.

Definition completion {E A : Type} (m : Async E A) : Completion A := snd m.

(** [Promise.resolve(a)]. *)
Definition Promise_resolve {E A : Type} (a : A) : Async E A := ret a.

End Async.

Import JS Async.

Notation "'let*' x ':=' m 'in' k" := (Async.bind m (fun x => k))
  (at level 10, x binder, m at level 100, k at level 200, only parsing).

(** ** The dynamic-provider interface ([dynamic.ResourceProvider]) *)

Module dynamic.

Record CheckFailure : Type := { property : string; reason : string }.

Record CheckResult : Type :=
  { inputs : gmap string JSValue; failedChecks : list CheckFailure }.

(** [replaces] is [None] when the result object has no such key. *)
Record DiffResult : Type := { replaces : option (list string) }.

Record CreateResult : Type :=
  { id : string; outs : option (gmap string JSValue) }.

Record UpdateResult : Type := { update_outs : option (gmap string JSValue) }.

End dynamic.

(** [failedChecks.push(f)] *)
Definition push {A : Type} (xs : list A) (x : A) : list A := xs ++ [x].

(** ** random.ts: the secret generator *)

Module RandomProvider.

Section Provider.

Variable StringToNumber : string -> JSNumber.

(** The provider performs no traced action. *)
Definition NoEvent : Type := Empty_set.

Definition check (olds news : gmap string JSValue)
  : Async NoEvent dynamic.CheckResult :=
  let failedChecks : list dynamic.CheckFailure := [] in
  let failedChecks :=
    if strict_eq (get news "byteCount") JSUndefined then
      push failedChecks
        {| dynamic.property := "byteCount";
           dynamic.reason := "required property 'byteCount' missing" |}
    else failedChecks in
  let failedChecks :=
    if negb (isNaN StringToNumber (get news "byteCount"))
       || le_zero StringToNumber (get news "byteCount") then
      push failedChecks
        {| dynamic.property := "byteCount";
           dynamic.reason := "'byteCount' should be a positive number" |}
    else failedChecks in
  Promise_resolve
    {| dynamic.inputs := news; dynamic.failedChecks := failedChecks |}.

Definition diff (id : string) (olds news : gmap string JSValue)
  : Async NoEvent dynamic.DiffResult :=
  if strict_neq (get olds "byteCount") (get news "byteCount") then
    Promise_resolve {| dynamic.replaces := Some ["byteCount"] |}
  else Promise_resolve {| dynamic.replaces := None |}.

(** [crypto.randomBytes(n)]: the next [n] bytes of the system's random
    source, given as the stream [entropy]. *)
Definition randomBytes (entropy : nat -> byte) (n : nat) : list byte :=
  map entropy (seq 0 n).

Definition create (entropy : nat -> byte) (inputs : gmap string JSValue)
  : Async NoEvent dynamic.CreateResult :=
  let value := Base64.encode (randomBytes entropy 32) in
  ret {| dynamic.id := value;
         dynamic.outs := Some {[ "value" := JSString value ]} |}.

Definition update (id : string) (olds news : gmap string JSValue)
  : Async NoEvent dynamic.UpdateResult :=
  Promise_resolve {| dynamic.update_outs := None |}.

Definition delete (id : string) (props : gmap string JSValue)
  : Async NoEvent unit :=
  Promise_resolve tt.

End Provider.

End RandomProvider.

(** ** The webhook registration provider *)

Module GithubWebhookProvider.

(** The [config] object of a hook request; [secret] is [None] when the
    object has no such key. *)
Record HookConfig : Type :=
  { content_type : string; url : JSValue; secret : option JSValue }.

(** The calls made on the REST client, with their parameter objects. *)
Inductive ApiCall : Type :=
| orgs_createHook (org : JSValue) (name : string) (events : JSValue)
    (config : HookConfig)
| repos_createHook (owner repo : JSValue) (name : string) (events : JSValue)
    (config : HookConfig)
| repos_editHook (hook_id : string) (owner repo events : JSValue)
    (config : HookConfig)
| orgs_deleteHook (hook_id : string) (org : JSValue)
| repos_deleteHook (hook_id : string) (owner repo : JSValue).

(** [GitHubApi.AnyResponse]. *)
Record AnyResponse : Type :=
  { status : Z; data : gmap string JSValue }.

Inductive Event : Type :=
| authenticate (type token : string)
| request (call : ApiCall).

Section Provider.

(** [new pulumi.Config("github").require("token")] *)
Variable ghToken : string.
(** The remote service: how each call completes. *)
Variable octokit : ApiCall -> Completion AnyResponse.
Variable NumberToString : JSNumber -> string.
(** [JSON.stringify(res)] *)
Variable JSON_stringify : AnyResponse -> string.

Definition check (olds news : gmap string JSValue)
  : Async Event dynamic.CheckResult :=
  let failedChecks : list dynamic.CheckFailure := [] in
  let failedChecks :=
    if strict_eq (get news "url") JSUndefined then
      push failedChecks
        {| dynamic.property := "url";
           dynamic.reason := "required property 'url' missing" |}
    else failedChecks in
  let failedChecks :=
    if strict_neq (get news "org") JSUndefined
       && (strict_neq (get news "owner") JSUndefined
           || strict_neq (get news "repo") JSUndefined) then
      push failedChecks
        {| dynamic.property := "org";
           dynamic.reason :=
             "when 'org' is set, 'owner' and 'repo' must not be" |}
    else failedChecks in
  let failedChecks :=
    if strict_neq (get news "owner") JSUndefined
       && strict_eq (get news "repo") JSUndefined then
      push failedChecks
        {| dynamic.property := "repo";
           dynamic.reason := "when 'owner' is set, 'repo' must be as well" |}
    else failedChecks in
  let failedChecks :=
    if strict_neq (get news "repo") JSUndefined
       && strict_eq (get news "owner") JSUndefined then
      push failedChecks
        {| dynamic.property := "owner";
           dynamic.reason := "when 'repo' is set, 'owner' must be as well" |}
    else failedChecks in
  Promise_resolve
    {| dynamic.inputs := news; dynamic.failedChecks := failedChecks |}.

Definition diff (id : string) (olds news : gmap string JSValue)
  : Async Event dynamic.DiffResult :=
  let replaces : list string := [] in
  let replaces :=
    fold_left
      (fun replaces prop =>
         if strict_neq (get olds prop) (get news prop)
         then push replaces prop else replaces)
      ["owner"; "repo"] replaces in
  let replaces :=
    if strict_neq (get olds "org") (get news "org")
    then push replaces "org" else replaces in
  Promise_resolve {| dynamic.replaces := Some replaces |}.

Definition bad_response (res : AnyResponse) : JSError :=
  mkError "Error" ("bad response: " +:+ JSON_stringify res).

Definition create (inputs : gmap string JSValue)
  : Async Event dynamic.CreateResult :=
  let* _ := emit (authenticate "token" ghToken) in
  let name := "web" in
  let events := get inputs "events" in
  let config :=
    {| content_type := "json";
       url := get inputs "url";
       secret := Some (get inputs "secret") |} in
  let* res :=
    if truthy (get inputs "org") then
      let call := orgs_createHook (get inputs "org") name events config in
      perform (request call) (octokit call)
    else
      let call :=
        repos_createHook (get inputs "owner") (get inputs "repo")
          name events config in
      perform (request call) (octokit call) in
  if negb (status res =? 201)%Z then throw (bad_response res)
  else
    ret {| dynamic.id := ToString NumberToString (get (data res) "id");
           dynamic.outs := None |}.

Definition update (id : string) (olds news : gmap string JSValue)
  : Async Event dynamic.UpdateResult :=
  let* _ := emit (authenticate "token" ghToken) in
  let call :=
    repos_editHook id (get news "owner") (get news "repo")
      (get news "events")
      {| content_type := "json";
         url := get news "url";
         secret := None |} in
  let* res := perform (request call) (octokit call) in
  ret {| dynamic.update_outs := Some {[ "id" := get (data res) "id" ]} |}.

Definition delete (id : string) (props : gmap string JSValue)
  : Async Event unit :=
  let* _ := emit (authenticate "token" ghToken) in
  let* res :=
    if truthy (get props "org") then
      let call := orgs_deleteHook id (get props "org") in
      perform (request call) (octokit call)
    else
      let call :=
        repos_deleteHook id (get props "owner") (get props "repo") in
      perform (request call) (octokit call) in
  if negb (status res =? 204)%Z then throw (bad_response res)
  else ret tt.

End Provider.

End GithubWebhookProvider.

(** ** The ingestion gateway: the [POST /] route of [GitHubWebhook] *)

Module GitHubWebhook.

(** [serverless.apigateway.Request], the fields the route reads. *)
Record Request : Type :=
  { headers : gmap string string;
    body : option string;
    isBase64Encoded : bool }.

(** [serverless.apigateway.Response] *)
Record Response : Type := { statusCode : Z; response_body : string }.

Section Route.

(** The value [JSON.parse] builds. *)
Variable JSON : Type.

Record GitHubWebhookRequest : Type :=
  { request : Request; type : string; id : string; data : JSON }.

Inductive Event : Type :=
| hmac_digest (algorithm key : string) (message : list byte)
| console_log (line : string)
| JSON_parse_call (text : string)
| handler_call (req : GitHubWebhookRequest).

Variable JSON_parse : string -> Completion JSON.
(** [Buffer.from(text, "base64")] *)
Variable Buffer_from_base64 : string -> list byte.
(** [buf.toString()] *)
Variable Buffer_toString : list byte -> string.
(** [secret.value.get()] *)
Variable secret_value : string.
(** [args.handler] *)
Variable handler : GitHubWebhookRequest -> Completion unit.

(** [Buffer.from(text, encoding)] for the two encodings the route uses. *)
Definition Buffer_from (text : string) (base64 : bool) : list byte :=
  if base64 then Buffer_from_base64 text else Bytes.of_string text.

(** [createHmac(algorithm, key)], [update(message)], [digest("hex")]. *)
Definition createHmac_sha1_hex (key : string) (message : list byte)
  : Async Event string :=
  perform (hmac_digest "sha1" key message)
    (Returns (Bytes.hex (Crypto.hmac_sha1 (Bytes.of_string key) message))).

Definition timingSafeEqual_length_error : JSError :=
  mkError "RangeError" "Input buffers must have the same byte length".

(** [crypto.timingSafeEqual(a, b)] throws unless the two buffers have
    the same length. *)
Definition timingSafeEqual (a b : list byte) : Async Event bool :=
  if negb (length a =? length b)%nat then
    throw timingSafeEqual_length_error
  else ret (Bytes.eqb a b).

(** A header or body the route takes as given: defined and not empty. *)
Definition truthy_text (v : option string) : bool :=
  match v with
  | Some s => negb (String.eqb s EmptyString)
  | None => false
  end.

(** The text of a value that passed [truthy_text]. *)
Definition text_of (v : option string) : string := default EmptyString v.

Definition routeHandler (req : Request) : Async Event Response :=
  let eventType := headers req !! "X-GitHub-Event" in
  let eventId := headers req !! "X-GitHub-Delivery" in
  let eventSig := headers req !! "X-Hub-Signature" in
  if negb (truthy_text eventType && truthy_text eventId
           && truthy_text eventSig && truthy_text (body req)) then
    ret {| statusCode := 400; response_body := "missing parameter" |}
  else
    let body := Buffer_from (text_of (body req)) (isBase64Encoded req) in
    let* hex := createHmac_sha1_hex secret_value body in
    let digest := "sha1=" +:+ hex in
    let* same :=
      timingSafeEqual (Bytes.of_string (text_of eventSig))
        (Bytes.of_string digest) in
    if negb same then
      let* _ :=
        emit (console_log
                ("[" +:+ text_of eventId +:+ "] ignorning, bad signature "
                 +:+ digest +:+ " != " +:+ text_of eventSig)) in
      ret {| statusCode := 400; response_body := "bad signature" |}
    else
      let text := Buffer_toString body in
      let* event := perform (JSON_parse_call text) (JSON_parse text) in
      let call :=
        {| request := req;
           type := text_of eventType;
           id := text_of eventId;
           data := event |} in
      let* _ := perform (handler_call call) (handler call) in
      ret {| statusCode := 200; response_body := EmptyString |}.

End Route.

End GitHubWebhook.

(** ** JSON text (the grammar [JSON.parse] accepts) *)

Module JSONText.

(** The syntax tree of a JSON text. A number is kept as its lexeme and a
    string as the characters between its quotes. *)
#[local] Unset Elimination Schemes.
Inductive value : Type :=
| JNull
| JBool (b : bool)
| JNumber (lexeme : string)
| JString (chars : string)
| JArray (items : list value)
| JObject (members : list (string * value)).
#[local] Set Elimination Schemes.

Definition code (c : ascii) : N := N_of_ascii c.

Definition is_char (c : ascii) (lit : string) : bool :=
  String.eqb (String c EmptyString) lit.

Definition is_quote (c : ascii) : bool := (code c =? 34)%N.

(** The text [s] between double quotes. *)
Definition quoted (s : string) : string :=
  String (ascii_of_N 34) (s +:+ String (ascii_of_N 34) EmptyString).

Definition is_ws (c : ascii) : bool :=
  (code c =? 32)%N || (code c =? 9)%N || (code c =? 10)%N
  || (code c =? 13)%N.

Definition is_digit (c : ascii) : bool :=
  (48 <=? code c)%N && (code c <=? 57)%N.

Definition is_hex (c : ascii) : bool :=
  is_digit c
  || ((65 <=? code c)%N && (code c <=? 70)%N)
  || ((97 <=? code c)%N && (code c <=? 102)%N).

Definition is_escape (c : ascii) : bool :=
  existsb (Ascii.eqb c) (list_ascii_of_string "\/bfnrt")
  || (code c =? 34)%N.

Fixpoint skip_ws (s : list ascii) : list ascii :=
  match s with
  | c :: rest => if is_ws c then skip_ws rest else s
  | [] => []
  end.

Fixpoint strip_prefix (p s : list ascii) : option (list ascii) :=
  match p, s with
  | [], _ => Some s
  | x :: p', y :: s' => if Ascii.eqb x y then strip_prefix p' s' else None
  | _ :: _, [] => None
  end.

Fixpoint digits (s : list ascii) : list ascii * list ascii :=
  match s with
  | c :: rest =>
      if is_digit c then let '(ds, r) := digits rest in (c :: ds, r)
      else ([], s)
  | [] => ([], [])
  end.

(** The characters of a string up to its closing quote. *)
Fixpoint parse_chars (s acc : list ascii) : option (string * list ascii) :=
  match s with
  | [] => None
  | c :: rest =>
      if (code c =? 34)%N then Some (string_of_list_ascii (rev acc), rest)
      else if (code c =? 92)%N then
        match rest with
        | e :: rest1 =>
            if is_escape e then parse_chars rest1 (e :: c :: acc)
            else if is_char e "u" then
              match rest1 with
              | h1 :: h2 :: h3 :: h4 :: rest2 =>
                  if is_hex h1 && is_hex h2 && is_hex h3 && is_hex h4 then
                    parse_chars rest2 (h4 :: h3 :: h2 :: h1 :: e :: c :: acc)
                  else None
              | _ => None
              end
            else None
        | [] => None
        end
      else if (code c <? 32)%N then None
      else parse_chars rest (c :: acc)
  end.

Definition parse_number (s : list ascii) : option (string * list ascii) :=
  let '(sign, s1) :=
    match s with
    | c :: rest => if is_char c "-" then ([c], rest) else ([], s)
    | [] => ([], s)
    end in
  let '(int, s2) := digits s1 in
  let int_ok :=
    match int with
    | [] => false
    | d :: more =>
        negb (is_char d "0") || match more with [] => true | _ => false end
    end in
  let frac :=
    match s2 with
    | c :: rest =>
        if is_char c "." then
          let '(ds, r) := digits rest in
          match ds with [] => None | _ => Some (c :: ds, r) end
        else Some ([], s2)
    | [] => Some ([], s2)
    end in
  match int_ok, frac with
  | true, Some (fr, s3) =>
      let exp :=
        match s3 with
        | c :: rest =>
            if is_char c "e" || is_char c "E" then
              let '(sg, r1) :=
                match rest with
                | x :: r =>
                    if is_char x "+" || is_char x "-" then ([x], r)
                    else ([], rest)
                | [] => ([], rest)
                end in
              let '(ds, r2) := digits r1 in
              match ds with [] => None | _ => Some (c :: sg ++ ds, r2) end
            else Some ([], s3)
        | [] => Some ([], s3)
        end in
      match exp with
      | Some (ex, s4) =>
          Some (string_of_list_ascii (sign ++ int ++ fr ++ ex), s4)
      | None => None
      end
  | _, _ => None
  end.

Fixpoint parse_value (fuel : nat) (s : list ascii)
  : option (value * list ascii) :=
  match fuel with
  | O => None
  | S fuel =>
      match skip_ws s with
      | [] => None
      | (c :: rest) as s' =>
          if is_quote c then
            match parse_chars rest [] with
            | Some (str, r) => Some (JString str, r)
            | None => None
            end
          else if is_char c "[" then
            match skip_ws rest with
            | c' :: r =>
                if is_char c' "]" then Some (JArray [], r)
                else
                  match parse_elements fuel rest with
                  | Some (vs, r') => Some (JArray vs, r')
                  | None => None
                  end
            | [] => None
            end
          else if is_char c "{" then
            match skip_ws rest with
            | c' :: r =>
                if is_char c' "}" then Some (JObject [], r)
                else
                  match parse_members fuel rest with
                  | Some (ms, r') => Some (JObject ms, r')
                  | None => None
                  end
            | [] => None
            end
          else if is_char c "-" || is_digit c then
            match parse_number s' with
            | Some (lexeme, r) => Some (JNumber lexeme, r)
            | None => None
            end
          else
            match strip_prefix (list_ascii_of_string "null") s',
                  strip_prefix (list_ascii_of_string "true") s',
                  strip_prefix (list_ascii_of_string "false") s' with
            | Some r, _, _ => Some (JNull, r)
            | _, Some r, _ => Some (JBool true, r)
            | _, _, Some r => Some (JBool false, r)
            | _, _, _ => None
            end
      end
  end
with parse_elements (fuel : nat) (s : list ascii)
  : option (list value * list ascii) :=
  match fuel with
  | O => None
  | S fuel =>
      match parse_value fuel s with
      | Some (v, r) =>
          match skip_ws r with
          | c :: r' =>
              if is_char c "," then
                match parse_elements fuel r' with
                | Some (vs, r'') => Some (v :: vs, r'')
                | None => None
                end
              else if is_char c "]" then Some ([v], r')
              else None
          | [] => None
          end
      | None => None
      end
  end
with parse_members (fuel : nat) (s : list ascii)
  : option (list (string * value) * list ascii) :=
  match fuel with
  | O => None
  | S fuel =>
      match skip_ws s with
      | q :: r0 =>
          if is_quote q then
            match parse_chars r0 [] with
            | Some (key, r1) =>
                match skip_ws r1 with
                | colon :: r2 =>
                    if is_char colon ":" then
                      match parse_value fuel r2 with
                      | Some (v, r3) =>
                          match skip_ws r3 with
                          | c :: r4 =>
                              if is_char c "," then
                                match parse_members fuel r4 with
                                | Some (ms, r5) => Some ((key, v) :: ms, r5)
                                | None => None
                                end
                              else if is_char c "}" then Some ([(key, v)], r4)
                              else None
                          | [] => None
                          end
                      | None => None
                      end
                    else None
                | [] => None
                end
            | None => None
            end
          else None
      | [] => None
      end
  end.

(** A whole text: one value between optional white space. *)
Definition parse (text : string) : option value :=
  let s := list_ascii_of_string text in
  match parse_value (2 * length s + 2) s with
  | Some (v, rest) =>
      match skip_ws rest with
      | [] => Some v
      | _ :: _ => None
      end
  | None => None
  end.

Definition syntax_error : JSError :=
  mkError "SyntaxError" "Unexpected token in JSON".

(** [JSON.parse(text)] *)
Definition JSON_parse (text : string) : Completion value :=
  match parse text with
  | Some v => Returns v
  | None => Throws syntax_error
  end.

End JSONText.

(** ** Vocabulary of the statements about deliveries *)

Module Delivery.

Import GitHubWebhook.

Definition eventType (req : Request) : option string :=
  headers req !! "X-GitHub-Event".

Definition eventId (req : Request) : option string :=
  headers req !! "X-GitHub-Delivery".

Definition eventSig (req : Request) : option string :=
  headers req !! "X-Hub-Signature".

(** The request carries the four inputs the route requires: each is
    defined and not empty. *)
Definition complete (req : Request) : Prop :=
  truthy_text (eventType req) = true
  /\ truthy_text (eventId req) = true
  /\ truthy_text (eventSig req) = true
  /\ truthy_text (body req) = true.

(** An input the route treats as missing: absent, or present and empty. *)
Definition missing (v : option string) : Prop := truthy_text v = false.

(** The bytes the signature is computed over. *)
Definition raw_body (Buffer_from_base64 : string -> list byte)
  (req : Request) : list byte :=
  Buffer_from Buffer_from_base64 (text_of (body req)) (isBase64Encoded req).

(** [sha1=] followed by the hex HMAC-SHA1 of the bytes under the secret. *)
Definition expected_signature (secret_value : string) (raw : list byte)
  : string :=
  "sha1=" +:+ Bytes.hex (Crypto.hmac_sha1 (Bytes.of_string secret_value) raw).

(** The line written to the console on a mismatch. *)
Definition mismatch_line (req : Request) (digest : string) : string :=
  "[" +:+ text_of (eventId req) +:+ "] ignorning, bad signature "
  +:+ digest +:+ " != " +:+ text_of (eventSig req).

End Delivery.

(** ** A concrete runtime, for running the route on given requests *)

Module Node.

(** [Buffer.from(text, "base64")] on well-formed padded text (Node also
    accepts unpadded and URL-safe text, which is not modelled). *)
Definition Buffer_from_base64 (text : string) : list byte :=
  default [] (Base64.decode text).

(** [buf.toString()] of UTF-8 bytes. *)
Definition Buffer_toString (bs : list byte) : string :=
  Bytes.string_of_bytes bs.

(** The route of a deployment whose handler is [handler]. *)
Definition routeHandler (secret_value : string)
  (handler : GitHubWebhook.GitHubWebhookRequest JSONText.value
             -> Completion unit)
  : GitHubWebhook.Request
    -> Async (GitHubWebhook.Event JSONText.value) GitHubWebhook.Response :=
  GitHubWebhook.routeHandler JSONText.value JSONText.JSON_parse
    Buffer_from_base64 Buffer_toString secret_value handler.

End Node.

(** ** Sample deliveries *)

Module Sample.

Import GitHubWebhook.

(** A generated secret: the base64 text of 32 bytes. *)
Definition secret : string :=
  "MDEyMzQ1Njc4OWFiY2RlZjAxMjM0NTY3ODlhYmNkZWY=".

(** A [ping] delivery with the given signature header and body. *)
Definition delivery (signature : string) (text : option string) : Request :=
  {| headers :=
       {[ "X-GitHub-Event" := "ping";
          "X-GitHub-Delivery" := "72d3162e-cc78-11e3-81ab-4c9367dc0958";
          "X-Hub-Signature" := signature ]};
     body := text;
     isBase64Encoded := false |}.

(** A handler that completes at once. *)
Definition quiet (req : GitHubWebhookRequest JSONText.value)
  : Completion unit :=
  Returns tt.

Definition zen : string :=
  "{" +:+ JSONText.quoted "zen" +:+ ":"
  +:+ JSONText.quoted "Keep it logically awesome." +:+ ","
  +:+ JSONText.quoted "hook_id" +:+ ":42}".

End Sample.

(** ** Vocabulary of the statements about authentication *)

Module Authentication.

Import GitHubWebhook Delivery.

(** The request carries the four inputs and its signature header is the
    expected text for its body under the secret. *)
Definition authentic (Buffer_from_base64 : string -> list byte)
  (secret_value : string) (req : Request) : Prop :=
  complete req
  /\ text_of (eventSig req)
     = expected_signature secret_value (raw_body Buffer_from_base64 req).

(** What the handler is called with for a request and a parsed payload. *)
Definition dispatch {JSON : Type} (req : Request) (payload : JSON)
  : GitHubWebhookRequest JSON :=
  {| request := req;
     type := text_of (eventType req);
     id := text_of (eventId req);
     data := payload |}.

Definition missing_parameter : Response :=
  {| statusCode := 400; response_body := "missing parameter" |}.

Definition bad_signature : Response :=
  {| statusCode := 400; response_body := "bad signature" |}.

Definition ok : Response :=
  {| statusCode := 200; response_body := EmptyString |}.

End Authentication.

(** ** Vocabulary of the statements about the providers *)

Module Counts.

Import QArith.QArith_base.

(** Two numbers that [===] takes for the same: [NaN] is the same as
    nothing, not even itself. *)
Definition same_number (m n : JSNumber) : Prop :=
  match m, n with
  | Finite p, Finite q => Qeq p q
  | Infinity a, Infinity b => a = b
  | _, _ => False
  end.

End Counts.

(** ** The component: [new GitHubWebhook(name, args)] *)

Module pulumi.

(** A [pulumi.Output<string>]: a property of a declared resource, known
    once the resource is deployed. *)
Record Output : Type := { resource : string; output : string }.

(** [pulumi.Input<A>]: a plain value, or an output. *)
Inductive Input (A : Type) : Type :=
| plain (a : A)
| from (o : Output).
Arguments plain {A} a.
Arguments from {A} o.

End pulumi.

Module GitHubWebhookResourceArgs.

Import pulumi.

(** The argument object of a registration; an optional field that the
    object does not hold is [None]. *)
Record GitHubWebhookResourceArgs : Type :=
  { url : Input string;
    owner : option (Input string);
    repo : option (Input string);
    org : option (Input string);
    events : Input (list string);
    secret : option (Input string) }.

End GitHubWebhookResourceArgs.

Module Assembly.

Import pulumi GitHubWebhook.

Record GitHubRepository : Type := { owner : string; repo : string }.

Section Component.

Variable JSON : Type.
Variable JSON_parse : string -> Completion JSON.
Variable Buffer_from_base64 : string -> list byte.
Variable Buffer_toString : list byte -> string.

Record GitHubWebhookArgs : Type :=
  { repositories : option (list GitHubRepository);
    organizations : option (list string);
    handler : GitHubWebhookRequest JSON -> Completion unit;
    events : list string }.

(** A route of the API. Its handler reads the secret of the deployment when
    it runs, hence the first argument. *)
Record Route : Type :=
  { path : string;
    method : string;
    route_handler : string -> Request -> Async (Event JSON) Response }.

(** The resources a program declares, in the order of the [new]s. *)
Inductive Declared : Type :=
| ComponentResource (type name : string)
| RandomResource (name : string) (props : gmap string JSValue)
    (parent : string)
| API (name : string) (routes : list Route) (parent : string)
| GitHubWebhookResource (name : string)
    (args : GitHubWebhookResourceArgs.GitHubWebhookResourceArgs)
    (parent : string).

(** [v === undefined] for an optional field. *)
Definition undefined {A : Type} (v : option A) : bool :=
  match v with
  | None => true
  | Some _ => false
  end.

(** [new RandomResource(name, byteCount, { parent })]; the result stands
    for [secret.value]. *)
Definition new_RandomResource (name : string) (byteCount : JSNumber)
  (parent : string) : Async Declared Output :=
  let* _ :=
    emit (RandomResource name
            {[ "byteCount" := JSNum byteCount; "value" := JSUndefined ]}
            parent) in
  ret {| resource := name; output := "value" |}.

(** [new serverless.apigateway.API(name, { routes }, { parent })]; the
    result stands for [api.url]. *)
Definition new_API (name : string) (routes : list Route) (parent : string)
  : Async Declared Output :=
  let* _ := emit (API name routes parent) in
  ret {| resource := name; output := "url" |}.

(** [new GitHubWebhookResource(name, args, { parent })] *)
Definition new_GitHubWebhookResource (name : string)
  (args : GitHubWebhookResourceArgs.GitHubWebhookResourceArgs)
  (parent : string) : Async Declared unit :=
  emit (GitHubWebhookResource name args parent).

(** [for (const x of xs) body] *)
Fixpoint for_of {A : Type} (xs : list A) (body : A -> Async Declared unit)
  : Async Declared unit :=
  match xs with
  | [] => ret tt
  | x :: rest => let* _ := body x in for_of rest body
  end.

(** The constructor of [GitHubWebhook]; the result is [this.url]. *)
Definition new_GitHubWebhook (name : string) (args : GitHubWebhookArgs)
  : Async Declared Output :=
  if undefined (organizations args) && undefined (repositories args) then
    throw
      (mkError "Error"
         "at least one organization or repository must be specified")
  else
    let* _ := emit (ComponentResource "github:rest:Hook" name) in
    let* secret_value := new_RandomResource (name +:+ "-secret")
                           (Finite (QArith_base.Qmake 32 1)) name in
    let* api_url :=
      new_API "hook"
        [ {| path := "/";
             method := "POST";
             route_handler :=
               fun deployed_secret =>
                 routeHandler JSON JSON_parse Buffer_from_base64
                   Buffer_toString deployed_secret (handler args) |} ]
        name in
    let* _ :=
      match repositories args with
      | Some repos =>
          for_of repos
            (fun r =>
               new_GitHubWebhookResource
                 (name +:+ "-registration-" +:+ owner r +:+ "-" +:+ repo r)
                 {| GitHubWebhookResourceArgs.owner := Some (plain (owner r));
                    GitHubWebhookResourceArgs.repo := Some (plain (repo r));
                    GitHubWebhookResourceArgs.org := None;
                    GitHubWebhookResourceArgs.secret :=
                      Some (from secret_value);
                    GitHubWebhookResourceArgs.events := plain (events args);
                    GitHubWebhookResourceArgs.url := from api_url |}
                 name)
      | None => ret tt
      end in
    let* _ :=
      match organizations args with
      | Some orgs =>
          for_of orgs
            (fun o =>
               new_GitHubWebhookResource (name +:+ "-registration-" +:+ o)
                 {| GitHubWebhookResourceArgs.owner := None;
                    GitHubWebhookResourceArgs.repo := None;
                    GitHubWebhookResourceArgs.org := Some (plain o);
                    GitHubWebhookResourceArgs.secret :=
                      Some (from secret_value);
                    GitHubWebhookResourceArgs.events := plain (events args);
                    GitHubWebhookResourceArgs.url := from api_url |}
                 name)
      | None => ret tt
      end in
    ret api_url.

End Component.

(** The property bag the engine hands to the provider for an argument
    object, once every output has the value [deployed] gives it. A field the
    object does not hold is not a key of the bag. *)
Definition resolve (deployed : Output -> string) (i : Input string)
  : JSValue :=
  match i with
  | plain s => JSString s
  | from o => JSString (deployed o)
  end.

Definition props_of (deployed : Output -> string)
  (deployed_events : Output -> list string)
  (args : GitHubWebhookResourceArgs.GitHubWebhookResourceArgs)
  : gmap string JSValue :=
  let optional (name : string) (field : option (Input string))
        (bag : gmap string JSValue) : gmap string JSValue :=
    match field with
    | Some i => <[name := resolve deployed i]> bag
    | None => bag
    end in
  let events :=
    match GitHubWebhookResourceArgs.events args with
    | plain items => JSArray 0 items
    | from o => JSArray 0 (deployed_events o)
    end in
  optional "owner" (GitHubWebhookResourceArgs.owner args)
    (optional "repo" (GitHubWebhookResourceArgs.repo args)
       (optional "org" (GitHubWebhookResourceArgs.org args)
          (optional "secret" (GitHubWebhookResourceArgs.secret args)
             (<["url" :=
                  resolve deployed (GitHubWebhookResourceArgs.url args)]>
                (<["events" := events]> ∅))))).

End Assembly.

(** ** Vocabulary of the statements about the component *)

Module Declarations.

Import pulumi Assembly.

(** The registrations among declared resources, in order: name and
    arguments. *)
Definition registrations {JSON : Type} (ds : list (Declared JSON))
  : list (string * GitHubWebhookResourceArgs.GitHubWebhookResourceArgs) :=
  omap (fun d =>
          match d with
          | GitHubWebhookResource _ name args _ => Some (name, args)
          | _ => None
          end) ds.

(** The scope an argument object names: [owner], [repo], [org]. *)
Definition scope
  (args : GitHubWebhookResourceArgs.GitHubWebhookResourceArgs)
  : option (Input string) * option (Input string) * option (Input string) :=
  (GitHubWebhookResourceArgs.owner args,
   GitHubWebhookResourceArgs.repo args,
   GitHubWebhookResourceArgs.org args).

(** The registration the component makes for a repository: its name and
    its arguments. *)
Definition of_repository (name : string) (events : list string)
  (r : GitHubRepository)
  : string * GitHubWebhookResourceArgs.GitHubWebhookResourceArgs :=
  (name +:+ "-registration-" +:+ owner r +:+ "-" +:+ repo r,
   {| GitHubWebhookResourceArgs.owner := Some (plain (owner r));
      GitHubWebhookResourceArgs.repo := Some (plain (repo r));
      GitHubWebhookResourceArgs.org := None;
      GitHubWebhookResourceArgs.secret :=
        Some (from {| resource := name +:+ "-secret"; output := "value" |});
      GitHubWebhookResourceArgs.events := plain events;
      GitHubWebhookResourceArgs.url :=
        from {| resource := "hook"; output := "url" |} |}).

(** The registration the component makes for an organization. *)
Definition of_organization (name : string) (events : list string)
  (o : string)
  : string * GitHubWebhookResourceArgs.GitHubWebhookResourceArgs :=
  (name +:+ "-registration-" +:+ o,
   {| GitHubWebhookResourceArgs.owner := None;
      GitHubWebhookResourceArgs.repo := None;
      GitHubWebhookResourceArgs.org := Some (plain o);
      GitHubWebhookResourceArgs.secret :=
        Some (from {| resource := name +:+ "-secret"; output := "value" |});
      GitHubWebhookResourceArgs.events := plain events;
      GitHubWebhookResourceArgs.url :=
        from {| resource := "hook"; output := "url" |} |}).

Definition refusal : JSError :=
  mkError "Error" "at least one organization or repository must be specified".

End Declarations.

(** ** Sample providers and components *)

Module Scenario.

Import pulumi Assembly GithubWebhookProvider.

(** A remote service that answers every creation with status 201 and no
    data. *)
Definition created_without_data (call : ApiCall) : Completion AnyResponse :=
  Returns {| status := 201; data := ∅ |}.

(** A proposed bag with a target URL and events, and no scope. *)
Definition scopeless : gmap string JSValue :=
  {[ "url" := JSString "https://hooks.example/stage/";
     "events" := JSArray 1 ["push"] ]}.

(** A component for one repository and the organization whose name is the
    owner, a dash and the repository. *)
Definition arguments : GitHubWebhookArgs JSONText.value :=
  {| repositories := Some [ {| owner := "ellismg"; repo := "hooks" |} ];
     organizations := Some ["ellismg-hooks"];
     handler := Sample.quiet;
     events := ["push"; "issues"] |}.

Definition construct (name : string)
  : Async (Declared JSONText.value) Output :=
  new_GitHubWebhook JSONText.value JSONText.JSON_parse Node.Buffer_from_base64
    Node.Buffer_toString name arguments.

(** A [ping] delivery signed for its own body. *)
Definition zen_delivery : GitHubWebhook.Request :=
  Sample.delivery "sha1=b3df425d7556b0a3dc6884d6dae6e977dbd4fa20"
    (Some Sample.zen).

Definition zen_payload : JSONText.value :=
  JSONText.JObject
    [("zen", JSONText.JString "Keep it logically awesome.");
     ("hook_id", JSONText.JNumber "42")].

(** The same delivery with the signature of another body. *)
Definition forged_delivery : GitHubWebhook.Request :=
  Sample.delivery "sha1=22c4bbe999d7cade53f2900a4b805428867af141"
    (Some Sample.zen).

(** The same delivery with a signature header cut short. *)
Definition cut_delivery : GitHubWebhook.Request :=
  Sample.delivery "sha1=00" (Some Sample.zen).

End Scenario.

(** * Properties *)

(** ** Test vectors of the encodings *)

Example sha1_abc :
  Bytes.hex (Crypto.sha1 (Bytes.of_string "abc"))
  = "a9993e364706816aba3e25717850c26c9cd0d89d".
Proof. vm_compute. reflexivity. Qed.

Example sha1_empty :
  Bytes.hex (Crypto.sha1 []) = "da39a3ee5e6b4b0d3255bfef95601890afd80709".
Proof. vm_compute. reflexivity. Qed.

Example sha1_two_blocks :
  Bytes.hex (Crypto.sha1 (Bytes.of_string
    "abcdbcdecdefdefgefghfghighijhijkijkljklmklmnlmnomnopnopq"))
  = "84983e441c3bd26ebaae4aa1f95129e5e54670f1".
Proof. vm_compute. reflexivity. Qed.

Example hmac_fox :
  Bytes.hex (Crypto.hmac_sha1 (Bytes.of_string "key")
    (Bytes.of_string "The quick brown fox jumps over the lazy dog"))
  = "de7c9b85b8b78aa6bc8a7a36f70a90701c9db4d9".
Proof. vm_compute. reflexivity. Qed.

Example base64_foobar :
  Base64.encode (Bytes.of_string "foobar") = "Zm9vYmFy"
  /\ Base64.encode (Bytes.of_string "fooba") = "Zm9vYmE="
  /\ Base64.encode (Bytes.of_string "foob") = "Zm9vYg=="
  /\ Base64.decode "Zm9vYg==" = Some (Bytes.of_string "foob").
Proof. vm_compute. repeat split; reflexivity. Qed.

Example json_parse_samples :
  let q := JSONText.quoted in
  JSONText.parse
    ("{" +:+ q "action" +:+ ": " +:+ q "opened" +:+ ", " +:+ q "number"
     +:+ ": 12, " +:+ q "tags" +:+ ": [true, null, -1.5e3]}")
  = Some (JSONText.JObject
            [("action", JSONText.JString "opened");
             ("number", JSONText.JNumber "12");
             ("tags",
              JSONText.JArray
                [JSONText.JBool true; JSONText.JNull;
                 JSONText.JNumber "-1.5e3"])])
  /\ JSONText.parse " [ ] " = Some (JSONText.JArray [])
  /\ JSONText.parse "{}" = Some (JSONText.JObject [])
  /\ JSONText.parse
       ("[[[1]],{" +:+ q "a" +:+ ":{" +:+ q "b" +:+ ":[]}}]") <> None
  /\ JSONText.parse "ping" = None
  /\ JSONText.parse "{" = None
  /\ JSONText.parse "01" = None
  /\ JSONText.parse "[1,]" = None
  /\ JSONText.parse ("{" +:+ q "a" +:+ ":1} x") = None
  /\ JSONText.parse EmptyString = None.
Proof. vm_compute. repeat split; try reflexivity; discriminate. Qed.

Example hmac_sample_deliveries :
  Delivery.expected_signature Sample.secret (Bytes.of_string Sample.zen)
  = "sha1=b3df425d7556b0a3dc6884d6dae6e977dbd4fa20"
  /\ Delivery.expected_signature Sample.secret (Bytes.of_string "ping")
     = "sha1=22c4bbe999d7cade53f2900a4b805428867af141"
  /\ Delivery.expected_signature Sample.secret (Bytes.of_string "{}")
     = "sha1=9e922efb0a9e27c3df32f6c1a75e9f517bb39b4f".
Proof. vm_compute. repeat split; reflexivity. Qed.

Example hmac_long_key :
  Bytes.hex (Crypto.hmac_sha1
    (Bytes.of_string
       ("kkkkkkkkkkkkkkkkkkkkkkkkkkkkkkkkkkkkkkkkkkkkkkkkkk"
        +:+ "kkkkkkkkkkkkkkkkkkkkkkkkkkkkkkkkkkkkkkkkkkkkkkkkkk"))
    (Bytes.of_string "abc"))
  = "26030f686a1d565e024767e62c960a6434855442".
Proof. vm_compute. reflexivity. Qed.

Example sample_delivery_lookup :
  Delivery.eventSig (Sample.delivery "sha1=00" None) = Some "sha1=00"
  /\ Delivery.eventType (Sample.delivery "sha1=00" None) = Some "ping".
Proof. vm_compute. split; reflexivity. Qed.

(** ** Bytes, digests and their text *)

Lemma bytes_eqb_eq (a b : list byte) : Bytes.eqb a b = true <-> a = b.
Proof.
  revert b. induction a as [|x a IH]; intros [|y b]; simpl; split;
    try congruence; try discriminate.
  - intros H. apply andb_prop in H as [Hx Hab].
    apply Byte.byte_dec_bl in Hx. apply IH in Hab. congruence.
  - intros H. injection H as -> ->.
    rewrite Byte.byte_dec_lb by reflexivity. simpl. now apply IH.
Qed.

Lemma of_string_length (s : string) :
  length (Bytes.of_string s) = String.length s.
Proof.
  unfold Bytes.of_string, list_byte_of_string.
  rewrite length_map. induction s; simpl; congruence.
Qed.

Lemma of_string_inj (s t : string) :
  Bytes.of_string s = Bytes.of_string t -> s = t.
Proof.
  intros H. rewrite <- (string_of_list_byte_of_string s).
  rewrite <- (string_of_list_byte_of_string t).
  unfold Bytes.of_string in H. now rewrite H.
Qed.

Lemma hex_length (bs : list byte) :
  String.length (Bytes.hex bs) = 2 * length bs.
Proof. induction bs as [|b bs IH]; simpl; [reflexivity | rewrite IH; lia]. Qed.

Lemma sha1_length (msg : list byte) : length (Crypto.sha1 msg) = 20.
Proof.
  unfold Crypto.sha1.
  destruct (Crypto.sha1_blocks _ _ _) as [[[[h0 h1] h2] h3] h4].
  reflexivity.
Qed.

Lemma hmac_sha1_length (key msg : list byte) :
  length (Crypto.hmac_sha1 key msg) = 20.
Proof. unfold Crypto.hmac_sha1. apply sha1_length. Qed.

Lemma string_length_append (s t : string) :
  String.length (s +:+ t) = String.length s + String.length t.
Proof. induction s as [|c s IH]; simpl; [reflexivity | now rewrite IH]. Qed.

Lemma digest_text_length (key : string) (msg : list byte) :
  String.length
    ("sha1=" +:+ Bytes.hex (Crypto.hmac_sha1 (Bytes.of_string key) msg)) = 45.
Proof.
  rewrite string_length_append, hex_length, hmac_sha1_length. reflexivity.
Qed.

(** ** Base64: decoding inverts encoding *)

Section Base64RoundTrip.

Local Open Scope N_scope.

Local Ltac euclid := zify; Z.to_euclidean_division_equations; lia.

Lemma list_ind3 {A : Type} (P : list A -> Prop) :
  P [] -> (forall a, P [a]) -> (forall a b, P [a; b]) ->
  (forall a b c l, P l -> P (a :: b :: c :: l)) ->
  forall l, P l.
Proof.
  intros H0 H1 H2 H3. fix IH 1.
  intros [|a [|b [|c l]]]; [exact H0 | apply H1 | apply H2 | apply H3, IH].
Qed.

Lemma sextet_digit (n : N) :
  n < 64 ->
  Base64.sextet (Base64.digit n) = Some n
  /\ Ascii.eqb (Base64.digit n) Base64.pad = false.
Proof.
  intros Hn.
  assert (Hall :
    forallb
      (fun k =>
         match Base64.sextet (Base64.digit k) with
         | Some j => N.eqb j k
         | None => false
         end && negb (Ascii.eqb (Base64.digit k) Base64.pad))
      (map N.of_nat (seq 0 64)) = true) by (vm_compute; reflexivity).
  rewrite forallb_forall in Hall. specialize (Hall n).
  assert (Hin : In n (map N.of_nat (seq 0 64))).
  { apply in_map_iff. exists (N.to_nat n). split; [lia|].
    apply in_seq. lia. }
  apply Hall in Hin. apply andb_prop in Hin as [Hs Hp].
  destruct (Base64.sextet (Base64.digit n)) as [j|]; [|discriminate].
  apply N.eqb_eq in Hs. subst j.
  split; [reflexivity | now apply negb_true_iff].
Qed.

Lemma of_N_to_N (b : byte) (n : N) : n = Byte.to_N b -> Bytes.of_N n = b.
Proof.
  intros ->. unfold Bytes.of_N.
  pose proof (Byte.to_N_bounded b).
  rewrite N.mod_small by lia. now rewrite Byte.of_to_N.
Qed.

Theorem base64_decode_encode (bs : list byte) :
  Base64.decode (Base64.encode bs) = Some bs.
Proof.
  induction bs as [|a|a b|a b c rest IH] using list_ind3.
  - reflexivity.
  - pose proof (Byte.to_N_bounded a) as Ha.
    cbn [Base64.encode Base64.decode].
    destruct (sextet_digit (Byte.to_N a / 4)) as [-> _]; [euclid|].
    destruct (sextet_digit ((Byte.to_N a mod 4) * 16)) as [-> _]; [euclid|].
    rewrite Ascii.eqb_refl. f_equal. f_equal. apply of_N_to_N. euclid.
  - pose proof (Byte.to_N_bounded a) as Ha.
    pose proof (Byte.to_N_bounded b) as Hb.
    cbn [Base64.encode Base64.decode].
    destruct (sextet_digit (Byte.to_N a / 4)) as [-> _]; [euclid|].
    destruct (sextet_digit ((Byte.to_N a mod 4) * 16 + Byte.to_N b / 16))
      as [-> _]; [euclid|].
    destruct (sextet_digit ((Byte.to_N b mod 16) * 4)) as [-> ->]; [euclid|].
    rewrite Ascii.eqb_refl.
    f_equal. f_equal; [|f_equal]; apply of_N_to_N; euclid.
  - pose proof (Byte.to_N_bounded a) as Ha.
    pose proof (Byte.to_N_bounded b) as Hb.
    pose proof (Byte.to_N_bounded c) as Hc.
    cbn [Base64.encode Base64.decode].
    destruct (sextet_digit (Byte.to_N a / 4)) as [-> _]; [euclid|].
    destruct (sextet_digit ((Byte.to_N a mod 4) * 16 + Byte.to_N b / 16))
      as [-> _]; [euclid|].
    destruct (sextet_digit ((Byte.to_N b mod 16) * 4 + Byte.to_N c / 64))
      as [-> ->]; [euclid|].
    destruct (sextet_digit (Byte.to_N c mod 64)) as [-> ->]; [euclid|].
    fold Base64.encode. rewrite IH.
    f_equal. f_equal; [|f_equal; [|f_equal]]; apply of_N_to_N; euclid.
Qed.

End Base64RoundTrip.

(** ** Strict equality *)

Lemma strict_eq_undefined (v : JSValue) :
  strict_eq v JSUndefined = true <-> v = JSUndefined.
Proof. destruct v; simpl; split; congruence. Qed.

Lemma strict_neq_undefined (v : JSValue) :
  strict_neq v JSUndefined = true <-> v <> JSUndefined.
Proof.
  unfold strict_neq. rewrite negb_true_iff, <- strict_eq_undefined.
  destruct (strict_eq v JSUndefined); split; congruence.
Qed.

Lemma strict_eq_defined (v : JSValue) :
  strict_eq v JSUndefined = false -> v <> JSUndefined.
Proof. rewrite <- strict_eq_undefined. congruence. Qed.

(** On texts and [undefined], the values a scope property is declared to
    take, [!==] is plain difference. *)
Lemma strict_neq_text (v w : JSValue) :
  text_or_undefined v -> text_or_undefined w ->
  (strict_neq v w = true <-> v <> w).
Proof.
  intros [-> | [s ->]] [-> | [t ->]]; unfold strict_neq; simpl;
    try destruct (String.eqb_spec s t) as [->|Hne]; simpl;
    (split; intros H; try reflexivity; try discriminate; try congruence;
     try (exfalso; apply H; reflexivity)).
Qed.

(** Membership of a name in an explicit list of names. *)
Ltac in_names :=
  unfold not; intros;
  repeat match goal with
  | H : _ ∈ _ |- _ => apply list_elem_of_In in H; simpl in H
  | |- _ ∈ _ => apply list_elem_of_In; simpl
  end;
  intuition (try discriminate; try congruence).

(** ** The secret generator *)

Section SecretGenerator.

Import RandomProvider.

Variable StringToNumber : string -> JSNumber.

(** [check] reports nothing exactly when [byteCount] is defined and is not
    a number at all. *)
Lemma secret_check_accepts (olds news : gmap string JSValue) :
  check StringToNumber olds news
  = Promise_resolve {| dynamic.inputs := news; dynamic.failedChecks := [] |}
  <-> get news "byteCount" <> JSUndefined
      /\ ToNumber StringToNumber (get news "byteCount") = NaN.
Proof.
  unfold check, isNaN, le_zero, Promise_resolve, ret, push.
  destruct (strict_eq (get news "byteCount") JSUndefined) eqn:Hundef.
  - apply strict_eq_undefined in Hundef. rewrite Hundef. cbn.
    split; [discriminate | intros [H _]; now contradiction H].
  - apply strict_eq_defined in Hundef.
    destruct (ToNumber StringToNumber (get news "byteCount")) as [|neg|q];
      cbn; split;
      try discriminate; try (intros [_ H]; discriminate H); try tauto.
Qed.

(** C4 (the code departs from the claim). [create] never reads
    [byteCount]: whatever the inputs, the value it returns is the base64
    text of the next 32 bytes of the random source, so it decodes to
    exactly 32 bytes (with [byteCount = 16] as with any other count). The
    encoded text is returned both as the identity [id] and as the output
    [value]. *)
Theorem secret_create_draws_32_bytes
  (entropy : nat -> byte) (inputs : gmap string JSValue) :
  exists (value : string) (bs : list byte),
    create entropy inputs
    = ret {| dynamic.id := value;
             dynamic.outs := Some {[ "value" := JSString value ]} |}
    /\ Base64.decode value = Some bs
    /\ bs = map entropy (seq 0 32)
    /\ length bs = 32.
Proof.
  exists (Base64.encode (randomBytes entropy 32)), (randomBytes entropy 32).
  split; [reflexivity|]. split; [apply base64_decode_encode|].
  split; [reflexivity|]. unfold randomBytes.
  now rewrite length_map, length_seq.
Qed.

(** C5 (the code departs from the claim). Whenever [byteCount] is a
    number, positive or not, [check] reports the failure
    ['byteCount' should be a positive number]: the test [!isNaN(...)] holds
    of every number. With [byteCount = 32] the failure list is not
    empty. *)
Theorem secret_check_rejects_every_number
  (olds news : gmap string JSValue) (q : QArith_base.Q) :
  check StringToNumber olds (<["byteCount" := JSNum (Finite q)]> news)
  = Promise_resolve
      {| dynamic.inputs := <["byteCount" := JSNum (Finite q)]> news;
         dynamic.failedChecks :=
           [ {| dynamic.property := "byteCount";
                dynamic.reason :=
                  "'byteCount' should be a positive number" |} ] |}.
Proof.
  unfold check, get. rewrite lookup_insert_eq. reflexivity.
Qed.

End SecretGenerator.

(** ** The webhook registration provider *)

Section WebhookRegistration.

Import GithubWebhookProvider.

Variable ghToken : string.
Variable octokit : ApiCall -> Completion AnyResponse.
Variable NumberToString : JSNumber -> string.
Variable JSON_stringify : AnyResponse -> string.

(** C6. [check] returns the proposed inputs and a failure list in which a
    name occurs at most once and only the names [url], [org], [repo] and
    [owner] occur; [url] is named exactly when [url] is absent, [org]
    exactly when [org] is set together with [owner] or [repo], [repo]
    exactly when [owner] is set and [repo] is not, and [owner] exactly when
    [repo] is set and [owner] is not. Every violated constraint is
    reported, whatever the others. *)
Theorem webhook_check_reports_every_violation
  (olds news : gmap string JSValue) :
  exists failures : list dynamic.CheckFailure,
    check olds news
    = Promise_resolve
        {| dynamic.inputs := news; dynamic.failedChecks := failures |}
    /\ NoDup (map dynamic.property failures)
    /\ (forall name, name ∈ map dynamic.property failures ->
                     name ∈ ["url"; "org"; "repo"; "owner"])
    /\ ("url" ∈ map dynamic.property failures
        <-> get news "url" = JSUndefined)
    /\ ("org" ∈ map dynamic.property failures
        <-> get news "org" <> JSUndefined
            /\ (get news "owner" <> JSUndefined
                \/ get news "repo" <> JSUndefined))
    /\ ("repo" ∈ map dynamic.property failures
        <-> get news "owner" <> JSUndefined
            /\ get news "repo" = JSUndefined)
    /\ ("owner" ∈ map dynamic.property failures
        <-> get news "repo" <> JSUndefined
            /\ get news "owner" = JSUndefined).
Proof.
  unfold check, strict_neq.
  destruct (strict_eq (get news "url") JSUndefined) eqn:Hurl;
  destruct (strict_eq (get news "org") JSUndefined) eqn:Horg;
  destruct (strict_eq (get news "owner") JSUndefined) eqn:Howner;
  destruct (strict_eq (get news "repo") JSUndefined) eqn:Hrepo;
  cbn [negb andb orb push app];
  (eexists; split; [reflexivity|]);
  repeat match goal with
  | H : strict_eq _ JSUndefined = true |- _ =>
      apply strict_eq_undefined in H
  | H : strict_eq _ JSUndefined = false |- _ =>
      apply strict_eq_defined in H
  end;
  cbn [map dynamic.property];
  (split; [repeat constructor; in_names|]);
  (split; [intros name; in_names|]);
  repeat split; in_names.
Qed.

(** The replace list is the scope names filtered by [!==], in the order
    [owner], [repo], [org]. *)
Lemma webhook_diff_filter (id : string) (olds news : gmap string JSValue) :
  diff id olds news
  = Promise_resolve
      {| dynamic.replaces :=
           Some (List.filter
                   (fun p => strict_neq (get olds p) (get news p))
                   ["owner"; "repo"; "org"]) |}.
Proof.
  unfold diff. cbn [fold_left List.filter].
  destruct (strict_neq (get olds "owner") (get news "owner"));
    destruct (strict_neq (get olds "repo") (get news "repo"));
    destruct (strict_neq (get olds "org") (get news "org"));
    reflexivity.
Qed.

(** C7. [diff] returns a replace list without repetition that holds
    exactly those of [owner], [repo] and [org] whose current and proposed
    values are different ([!==]); for the values the three are declared to
    take (a text, or [undefined]) these are the names whose two values are
    not the same. When the two bags agree ([===]) on the three, whatever
    their [events] and [url], the list is empty. *)
Theorem webhook_diff_replaces_changed_scope
  (id : string) (olds news : gmap string JSValue) :
  exists rs : list string,
    diff id olds news = Promise_resolve {| dynamic.replaces := Some rs |}
    /\ NoDup rs
    /\ (forall p, p ∈ rs
                  <-> p ∈ ["owner"; "repo"; "org"]
                      /\ strict_neq (get olds p) (get news p) = true)
    /\ ((forall p, p ∈ ["owner"; "repo"; "org"] ->
                   text_or_undefined (get olds p)
                   /\ text_or_undefined (get news p)) ->
        forall p, p ∈ rs
                  <-> p ∈ ["owner"; "repo"; "org"]
                      /\ get olds p <> get news p)
    /\ ((forall p, p ∈ ["owner"; "repo"; "org"] ->
                   strict_eq (get olds p) (get news p) = true) ->
        rs = []).
Proof.
  eexists. split; [apply webhook_diff_filter|].
  set (changed := fun p => strict_neq (get olds p) (get news p)).
  assert (Hin : forall p,
             p ∈ List.filter changed ["owner"; "repo"; "org"]
             <-> p ∈ ["owner"; "repo"; "org"] /\ changed p = true).
  { intros p. rewrite !list_elem_of_In. apply List.filter_In. }
  split; [|split; [exact Hin|split]].
  - apply NoDup_ListNoDup, List.NoDup_filter, NoDup_ListNoDup.
    repeat constructor; in_names.
  - intros Htyped p. rewrite Hin. split; intros [Hp Hc]; split; trivial.
    + destruct (Htyped p Hp) as [Ho Hn].
      now apply (strict_neq_text _ _ Ho Hn).
    + destruct (Htyped p Hp) as [Ho Hn].
      now apply (strict_neq_text _ _ Ho Hn).
  - intros Hsame.
    destruct (List.filter changed ["owner"; "repo"; "org"])
      as [|p rest] eqn:Hrs; [reflexivity|].
    assert (Hp : p ∈ p :: rest) by (apply list_elem_of_In; now left).
    apply Hin in Hp as [Hp Hc]. unfold changed, strict_neq in Hc.
    rewrite (Hsame p Hp) in Hc. discriminate Hc.
Qed.

(** C8. [create] authenticates with the token and issues one call: the
    organization hook creation when [org] is set (truthy), the repository
    hook creation otherwise, with the name [web], the event list and the
    configuration made of the JSON content type, the target URL and the
    secret. A rejected call propagates; an answer whose status is not 201
    raises an error whose message carries the whole response; on status 201
    the identifier in the answer is returned, as text, as [id]. *)
Theorem webhook_create_endpoint_and_status (inputs : gmap string JSValue) :
  let config :=
    {| content_type := "json";
       url := get inputs "url";
       secret := Some (get inputs "secret") |} in
  let call :=
    if truthy (get inputs "org") then
      orgs_createHook (get inputs "org") "web" (get inputs "events") config
    else
      repos_createHook (get inputs "owner") (get inputs "repo") "web"
        (get inputs "events") config in
  create ghToken octokit NumberToString JSON_stringify inputs
  = ([authenticate "token" ghToken; request call],
     match octokit call with
     | Returns res =>
         if (status res =? 201)%Z then
           Returns
             {| dynamic.id := ToString NumberToString (get (data res) "id");
                dynamic.outs := None |}
         else
           Throws
             (mkError "Error" ("bad response: " +:+ JSON_stringify res))
     | Throws e => Throws e
     end).
Proof.
  intros config call. unfold create, emit, perform. subst call config.
  destruct (truthy (get inputs "org")); cbn [bind app];
    (destruct (octokit _) as [res|e]; [|reflexivity]);
    destruct (status res =? 201)%Z; reflexivity.
Qed.

(** C10. Whatever the recorded scope, [update] authenticates and issues
    one repository-scoped edit call for the hook, with [owner] and [repo]
    read from the proposed properties ([undefined] when they hold none),
    the events, and a configuration without the secret; when the call is
    answered, with any status, the outputs are returned. [create] and
    [delete], on the contrary, raise when the status of the answer is not
    201, respectively 204. *)
Theorem webhook_update_edits_repo_hook_unchecked
  (id : string) (olds news : gmap string JSValue) :
  let call :=
    repos_editHook id (get news "owner") (get news "repo")
      (get news "events")
      {| content_type := "json"; url := get news "url"; secret := None |} in
  update ghToken octokit id olds news
  = ([authenticate "token" ghToken; request call],
     match octokit call with
     | Returns res =>
         Returns
           {| dynamic.update_outs :=
                Some {[ "id" := get (data res) "id" ]} |}
     | Throws e => Throws e
     end)
  /\ (forall inputs : gmap string JSValue,
        exists call',
          create ghToken octokit NumberToString JSON_stringify inputs
          = ([authenticate "token" ghToken; request call'],
             match octokit call' with
             | Returns res =>
                 if (status res =? 201)%Z then
                   Returns
                     {| dynamic.id :=
                          ToString NumberToString (get (data res) "id");
                        dynamic.outs := None |}
                 else Throws (bad_response JSON_stringify res)
             | Throws e => Throws e
             end))
  /\ (forall props : gmap string JSValue,
        exists call',
          delete ghToken octokit JSON_stringify id props
          = ([authenticate "token" ghToken; request call'],
             match octokit call' with
             | Returns res =>
                 if (status res =? 204)%Z then Returns tt
                 else Throws (bad_response JSON_stringify res)
             | Throws e => Throws e
             end)).
Proof.
  intros call. split; [|split].
  - unfold update, emit, perform. subst call. cbn [bind app].
    destruct (octokit _) as [res|e]; reflexivity.
  - intros inputs. unfold create, emit, perform.
    destruct (truthy (get inputs "org")); cbn [bind app];
      (match goal with |- context [octokit ?c] => exists c end);
      (destruct (octokit _) as [res|e];
       [destruct (status res =? 201)%Z|]; reflexivity).
  - intros props. unfold delete, emit, perform.
    destruct (truthy (get props "org")); cbn [bind app];
      (match goal with |- context [octokit ?c] => exists c end);
      (destruct (octokit _) as [res|e];
       [destruct (status res =? 204)%Z|]; reflexivity).
Qed.

End WebhookRegistration.

(** The replace list of a pair that differs in [url] and [events] only. *)
Lemma webhook_diff_witness :
  let olds : gmap string JSValue :=
    {[ "owner" := JSString "ellismg"; "repo" := JSString "hooks";
       "url" := JSString "https://a.example/";
       "events" := JSArray 1 ["push"] ]} in
  let news : gmap string JSValue :=
    {[ "owner" := JSString "ellismg"; "repo" := JSString "hooks";
       "url" := JSString "https://b.example/";
       "events" := JSArray 2 ["push"; "issues"] ]} in
  (forall p, p ∈ ["owner"; "repo"; "org"] ->
             strict_eq (get olds p) (get news p) = true)
  /\ GithubWebhookProvider.diff "12" olds news
     = Promise_resolve {| dynamic.replaces := Some [] |}.
Proof.
  intros olds news.
  assert (Hsame : forall p, p ∈ ["owner"; "repo"; "org"] ->
                            strict_eq (get olds p) (get news p) = true).
  { intros p Hp. apply list_elem_of_In in Hp. simpl in Hp.
    destruct Hp as [<-|[<-|[<-|[]]]]; vm_compute; reflexivity. }
  split; [exact Hsame|].
  destruct (webhook_diff_replaces_changed_scope "12" olds news)
    as (rs & Hdiff & _ & _ & _ & Hempty).
  rewrite Hdiff, (Hempty Hsame). reflexivity.
Defined.

(** ** The ingestion gateway *)

Section Gateway.

Import GitHubWebhook Delivery.

Context {JSON : Type}.
Variable JSON_parse : string -> Completion JSON.
Variable Buffer_from_base64 : string -> list byte.
Variable Buffer_toString : list byte -> string.
Variable secret_value : string.
Variable handler : GitHubWebhookRequest JSON -> Completion unit.

Local Abbreviation route :=
  (routeHandler JSON JSON_parse Buffer_from_base64 Buffer_toString
     secret_value handler).
Local Abbreviation raw := (raw_body Buffer_from_base64).

Lemma complete_test (req : Request) :
  complete req ->
  negb (truthy_text (headers req !! "X-GitHub-Event")
        && truthy_text (headers req !! "X-GitHub-Delivery")
        && truthy_text (headers req !! "X-Hub-Signature")
        && truthy_text (body req)) = false.
Proof.
  unfold complete, eventType, eventId, eventSig.
  intros (-> & -> & -> & ->). reflexivity.
Qed.

(** Comparing the bytes of two texts: an error when the lengths differ,
    otherwise whether the texts are the same. *)
Lemma timingSafeEqual_text (E : Type) (s t : string) :
  timingSafeEqual E (Bytes.of_string s) (Bytes.of_string t)
  = if negb (String.length s =? String.length t)%nat
    then throw timingSafeEqual_length_error
    else ret (String.eqb s t).
Proof.
  unfold timingSafeEqual. rewrite !of_string_length.
  destruct (String.length s =? String.length t)%nat; simpl; [|reflexivity].
  f_equal. destruct (String.eqb_spec s t) as [->|Hne].
  - now apply bytes_eqb_eq.
  - destruct (Bytes.eqb _ _) eqn:Heq; [|reflexivity].
    apply bytes_eqb_eq, of_string_inj in Heq. contradiction.
Qed.

(** Runs the route of a request with the four inputs up to the
    comparison of the two signature texts. *)
Local Ltac run_to_comparison req Hreq :=
  unfold routeHandler;
  rewrite (complete_test req Hreq);
  unfold createHmac_sha1_hex, perform; cbn [bind];
  rewrite timingSafeEqual_text;
  fold (eventSig req) (eventId req) (eventType req);
  fold (raw_body Buffer_from_base64 req);
  fold (expected_signature secret_value (raw req));
  unfold expected_signature at 1; rewrite digest_text_length;
  fold (expected_signature secret_value (raw req)).

(** A signature of the right length that is not the expected one is
    answered 400 and logged; nothing is parsed, the handler is not called. *)
Lemma wrong_signature_of_same_length_rejected (req : Request) :
  complete req ->
  String.length (text_of (eventSig req)) = 45 ->
  text_of (eventSig req) <> expected_signature secret_value (raw req) ->
  route req
  = ([hmac_digest JSON "sha1" secret_value (raw req);
      console_log JSON
        (mismatch_line req (expected_signature secret_value (raw req)))],
     Returns {| statusCode := 400; response_body := "bad signature" |}).
Proof.
  intros Hreq Hlen Hne. run_to_comparison req Hreq. rewrite Hlen.
  destruct (String.eqb_spec (text_of (eventSig req))
              (expected_signature secret_value (raw req)));
    [contradiction | reflexivity].
Qed.

(** C2, as amended. For a request that carries the four inputs and whose
    signature header is [sha1=] followed by the hex HMAC-SHA1, under the
    secret, of the body bytes (decoded from base64 when the request is
    flagged so): the route computes the digest and parses the body text.
    When the text is JSON the handler is called once with the request, the
    event type, the delivery id and the parsed payload, and the answer is
    200 with an empty body once it completes, or its error when it raises.
    When the text is not JSON the parse error propagates and the handler is
    not called. *)
Theorem authentic_delivery_parsed_and_dispatched (req : Request) :
  complete req ->
  text_of (eventSig req) = expected_signature secret_value (raw req) ->
  route req
  = let text := Buffer_toString (raw req) in
    match JSON_parse text with
    | Returns payload =>
        let call :=
          {| request := req;
             type := text_of (eventType req);
             id := text_of (eventId req);
             data := payload |} in
        ([hmac_digest JSON "sha1" secret_value (raw req);
          JSON_parse_call JSON text;
          handler_call JSON call],
         match handler call with
         | Returns _ =>
             Returns {| statusCode := 200; response_body := EmptyString |}
         | Throws e => Throws e
         end)
    | Throws e =>
        ([hmac_digest JSON "sha1" secret_value (raw req);
          JSON_parse_call JSON text],
         Throws e)
    end.
Proof.
  intros Hreq Heq. run_to_comparison req Hreq. rewrite Heq.
  unfold expected_signature at 1. rewrite digest_text_length.
  rewrite String.eqb_refl. cbn.
  destruct (JSON_parse _) as [payload|e]; [|reflexivity].
  destruct (handler _) as [[]|e]; reflexivity.
Qed.

(** C3. A request in which the event type, the delivery id, the signature
    or the body is missing is answered 400 with the body
    [missing parameter], and the route does nothing else: no digest is
    computed, nothing is parsed, the handler is not called. *)
Theorem incomplete_delivery_rejected (req : Request) :
  missing (eventType req) \/ missing (eventId req)
  \/ missing (eventSig req) \/ missing (body req) ->
  route req
  = ([],
     Returns {| statusCode := 400; response_body := "missing parameter" |}).
Proof.
  unfold missing, eventType, eventId, eventSig, routeHandler.
  intros [H | [H | [H | H]]]; rewrite H;
    rewrite ?andb_false_r; reflexivity.
Qed.

(** C9, as amended. The expected signature text is 45 bytes long. For a
    request that carries the four inputs and whose signature header has
    another length, the comparison throws: the route, having computed the
    digest, fails with that error, without logging, parsing or calling the
    handler, and without the 400 answer. *)
Theorem signature_of_other_length_throws (req : Request) :
  complete req ->
  length (Bytes.of_string (text_of (eventSig req))) <> 45 ->
  length (Bytes.of_string (expected_signature secret_value (raw req))) = 45
  /\ route req
     = ([hmac_digest JSON "sha1" secret_value (raw req)],
        Throws timingSafeEqual_length_error).
Proof.
  rewrite !of_string_length. intros Hreq Hlen.
  split; [apply digest_text_length|].
  run_to_comparison req Hreq.
  destruct (Nat.eqb_spec (String.length (text_of (eventSig req))) 45);
    [contradiction | reflexivity].
Qed.

End Gateway.

(** ** The gateway on sample deliveries *)

Import GitHubWebhook Delivery.

(** C1 (the code departs from the claim). A delivery with the four inputs
    whose signature header is not the expected text, here a truncated one, is
    not answered 400: the comparison of buffers of different lengths throws,
    nothing is logged and the error escapes the route. The handler is not
    called. *)
Theorem signature_of_other_length_not_rejected
  (handler : GitHubWebhookRequest JSONText.value -> Completion unit) :
  let req := Sample.delivery "sha1=9e922efb" (Some "{}") in
  complete req
  /\ text_of (eventSig req)
     <> expected_signature Sample.secret (raw_body Node.Buffer_from_base64 req)
  /\ Node.routeHandler Sample.secret handler req
     = ([hmac_digest JSONText.value "sha1" Sample.secret
           (Bytes.of_string "{}")],
        Throws timingSafeEqual_length_error).
Proof.
  intros req. split; [|split].
  - vm_compute. auto.
  - apply String.eqb_neq. vm_compute. reflexivity.
  - vm_compute. reflexivity.
Qed.

(** C2, the claim as stated fails: a delivery with the four inputs and the
    right signature whose body is not JSON is neither dispatched nor answered
    200; the parse error propagates. *)
Lemma authentic_non_json_delivery_not_dispatched :
  let req :=
    Sample.delivery "sha1=22c4bbe999d7cade53f2900a4b805428867af141"
      (Some "ping") in
  complete req
  /\ text_of (eventSig req)
     = expected_signature Sample.secret (raw_body Node.Buffer_from_base64 req)
  /\ Node.routeHandler Sample.secret Sample.quiet req
     = ([hmac_digest JSONText.value "sha1" Sample.secret
           (Bytes.of_string "ping");
         JSON_parse_call JSONText.value "ping"],
        Throws JSONText.syntax_error).
Proof.
  intros req. split; [|split].
  - vm_compute. auto.
  - vm_compute. reflexivity.
  - vm_compute. reflexivity.
Qed.

(** An authentic JSON delivery is dispatched and answered 200. *)
Lemma authentic_delivery_witness :
  let req :=
    Sample.delivery "sha1=b3df425d7556b0a3dc6884d6dae6e977dbd4fa20"
      (Some Sample.zen) in
  complete req
  /\ text_of (eventSig req)
     = expected_signature Sample.secret (raw_body Node.Buffer_from_base64 req)
  /\ Node.routeHandler Sample.secret Sample.quiet req
     = ([hmac_digest JSONText.value "sha1" Sample.secret
           (Bytes.of_string Sample.zen);
         JSON_parse_call JSONText.value Sample.zen;
         handler_call JSONText.value
           {| request := req;
              type := "ping";
              id := "72d3162e-cc78-11e3-81ab-4c9367dc0958";
              data :=
                JSONText.JObject
                  [("zen", JSONText.JString "Keep it logically awesome.");
                   ("hook_id", JSONText.JNumber "42")] |}],
        Returns {| statusCode := 200; response_body := EmptyString |}).
Proof.
  intros req.
  assert (Hreq : complete req) by (vm_compute; auto).
  assert (Hsig :
    text_of (eventSig req)
    = expected_signature Sample.secret (raw_body Node.Buffer_from_base64 req))
    by (vm_compute; reflexivity).
  split; [exact Hreq|]. split; [exact Hsig|].
  unfold Node.routeHandler.
  rewrite (authentic_delivery_parsed_and_dispatched
             JSONText.JSON_parse Node.Buffer_from_base64 Node.Buffer_toString
             Sample.secret Sample.quiet req Hreq Hsig).
  vm_compute. reflexivity.
Defined.

(** A delivery without a body is answered 400. *)
Lemma incomplete_delivery_witness :
  let req :=
    Sample.delivery "sha1=b3df425d7556b0a3dc6884d6dae6e977dbd4fa20" None in
  (missing (eventType req) \/ missing (eventId req)
   \/ missing (eventSig req) \/ missing (body req))
  /\ Node.routeHandler Sample.secret Sample.quiet req
     = ([],
        Returns {| statusCode := 400; response_body := "missing parameter" |}).
Proof.
  intros req.
  assert (Hmiss : missing (eventType req) \/ missing (eventId req)
                  \/ missing (eventSig req) \/ missing (body req))
    by (right; right; right; reflexivity).
  split; [exact Hmiss|].
  exact (incomplete_delivery_rejected
           JSONText.JSON_parse Node.Buffer_from_base64 Node.Buffer_toString
           Sample.secret Sample.quiet req Hmiss).
Defined.

(** C9, the claim as stated fails: a request whose signature header has
    another length than 45 bytes but which lacks a body is answered 400 at the
    first test; the comparison is not reached and nothing is thrown. *)
Lemma short_signature_without_body_answered_400 :
  let req := Sample.delivery "sha1=00" None in
  length (Bytes.of_string (text_of (eventSig req))) <> 45
  /\ Node.routeHandler Sample.secret Sample.quiet req
     = ([],
        Returns {| statusCode := 400; response_body := "missing parameter" |})
  /\ completion (Node.routeHandler Sample.secret Sample.quiet req)
     <> Throws timingSafeEqual_length_error.
Proof.
  intros req. split; [|split].
  - vm_compute. discriminate.
  - vm_compute. reflexivity.
  - vm_compute. discriminate.
Qed.

(** A complete delivery with a short signature header makes the route
    throw. *)
Lemma signature_of_other_length_witness :
  let req := Sample.delivery "sha1=00" (Some Sample.zen) in
  complete req
  /\ length (Bytes.of_string (text_of (eventSig req))) <> 45
  /\ length
       (Bytes.of_string
          (expected_signature Sample.secret
             (raw_body Node.Buffer_from_base64 req))) = 45
  /\ Node.routeHandler Sample.secret Sample.quiet req
     = ([hmac_digest JSONText.value "sha1" Sample.secret
           (raw_body Node.Buffer_from_base64 req)],
        Throws timingSafeEqual_length_error).
Proof.
  intros req.
  assert (Hreq : complete req) by (vm_compute; auto).
  assert (Hlen : length (Bytes.of_string (text_of (eventSig req))) <> 45)
    by (vm_compute; discriminate).
  split; [exact Hreq|]. split; [exact Hlen|].
  exact (signature_of_other_length_throws
           JSONText.JSON_parse Node.Buffer_from_base64 Node.Buffer_toString
           Sample.secret Sample.quiet req Hreq Hlen).
Defined.

(** ** The gateway: what every request gets *)

Section GatewayCases.

Import GitHubWebhook Delivery Authentication.

Context {JSON : Type}.
Variable JSON_parse : string -> Completion JSON.
Variable Buffer_from_base64 : string -> list byte.
Variable Buffer_toString : list byte -> string.
Variable secret_value : string.
Variable handler : GitHubWebhookRequest JSON -> Completion unit.

Local Abbreviation route :=
  (routeHandler JSON JSON_parse Buffer_from_base64 Buffer_toString
     secret_value handler).
Local Abbreviation raw := (raw_body Buffer_from_base64).
Local Abbreviation genuine := (authentic Buffer_from_base64 secret_value).
Local Abbreviation digest :=
  (fun req => hmac_digest JSON "sha1" secret_value (raw req)).
Local Abbreviation parsing :=
  (fun req => JSON_parse_call JSON (Buffer_toString (raw req))).

Lemma complete_dec (req : Request) : complete req \/ ~ complete req.
Proof.
  unfold complete.
  destruct (truthy_text (eventType req)), (truthy_text (eventId req)),
    (truthy_text (eventSig req)), (truthy_text (body req));
    first [ left; now repeat split
          | right; intros (? & ? & ? & ?); discriminate ].
Qed.

Lemma expected_signature_length (key : string) (message : list byte) :
  String.length (expected_signature key message) = 45.
Proof. apply digest_text_length. Qed.

(** The five ways through the route: a missing input; a signature header of
    another length than the digest text; one of that length that is not the
    digest text; an authentic request whose body is not JSON; an authentic
    request that is dispatched. *)
Lemma route_cases (req : Request) :
  (~ complete req /\ route req = ([], Returns missing_parameter))
  \/ (complete req
      /\ String.length (text_of (eventSig req)) <> 45
      /\ route req = ([digest req], Throws timingSafeEqual_length_error))
  \/ (complete req
      /\ String.length (text_of (eventSig req)) = 45
      /\ text_of (eventSig req) <> expected_signature secret_value (raw req)
      /\ route req
         = ([digest req;
             console_log JSON
               (mismatch_line req
                  (expected_signature secret_value (raw req)))],
            Returns bad_signature))
  \/ (exists e,
        genuine req
        /\ JSON_parse (Buffer_toString (raw req)) = Throws e
        /\ route req = ([digest req; parsing req], Throws e))
  \/ (exists payload,
        genuine req
        /\ JSON_parse (Buffer_toString (raw req)) = Returns payload
        /\ route req
           = ([digest req; parsing req;
               handler_call JSON (dispatch req payload)],
              match handler (dispatch req payload) with
              | Returns _ => Returns ok
              | Throws e => Throws e
              end)).
Proof.
  destruct (complete_dec req) as [Hreq | Hreq].
  - right. unfold routeHandler. rewrite (complete_test req Hreq).
    unfold createHmac_sha1_hex, perform. cbn [bind].
    rewrite timingSafeEqual_text.
    fold (eventSig req) (eventId req) (eventType req).
    fold (raw_body Buffer_from_base64 req).
    fold (expected_signature secret_value (raw req)).
    rewrite expected_signature_length.
    fold (mismatch_line req (expected_signature secret_value (raw req))).
    destruct (Nat.eqb_spec (String.length (text_of (eventSig req))) 45)
      as [Hlen | Hlen]; cbn [negb bind throw];
      [right | left; split; [exact Hreq|]; split; [exact Hlen|]; reflexivity].
    destruct (String.eqb_spec (text_of (eventSig req))
                (expected_signature secret_value (raw req))) as [Heq | Hne];
      cbn [negb bind ret emit app];
      [right
      |left; split; [exact Hreq|]; split; [exact Hlen|];
       split; [exact Hne|]; reflexivity].
    destruct (JSON_parse (Buffer_toString (raw req)))
      as [payload | e] eqn:Hparse; cbn.
    + right. exists payload. split; [now split|]. split; [reflexivity|].
      unfold dispatch. destruct (handler _) as [[] | e]; reflexivity.
    + left. exists e. split; [now split|]. now split.
  - left. split; [exact Hreq|]. unfold routeHandler.
    destruct (negb _) eqn:Htest; [reflexivity|].
    exfalso. apply Hreq. apply negb_false_iff in Htest.
    repeat (apply andb_prop in Htest as [Htest ?]).
    unfold complete, eventType, eventId, eventSig. auto.
Qed.

(** Splits a goal about [route req] along [route_cases]. *)
Local Ltac by_route_cases req :=
  destruct (route_cases req)
    as [ (Hinc & Hroute)
       | [ (Hreq & Hlen & Hroute)
         | [ (Hreq & Hlen & Hne & Hroute)
           | [ (err & Hauth & Hparse & Hroute)
             | (payload & Hauth & Hparse & Hroute) ] ] ] ];
  rewrite Hroute in *; clear Hroute; cbn [trace completion fst snd] in *.

(** Membership in a short explicit trace. *)
Local Ltac in_trace H :=
  repeat (apply elem_of_cons in H as [H | H]);
  try (apply elem_of_nil in H; contradiction);
  try discriminate H.

(** The handler is called only for an authentic request, and then with the
    request itself, its event type and delivery id, and the payload that
    [JSON.parse] returned for the text of the authenticated bytes. *)
Theorem handler_called_only_when_authentic
  (req : Request) (call : GitHubWebhookRequest JSON) :
  handler_call JSON call ∈ trace (route req) ->
  genuine req
  /\ exists payload,
       JSON_parse (Buffer_toString (raw req)) = Returns payload
       /\ call = dispatch req payload.
Proof.
  intros Hin. by_route_cases req; in_trace Hin.
  injection Hin as ->. split; [exact Hauth|]. now exists payload.
Qed.

(** [JSON.parse] is applied only to the text of a body whose signature has
    been verified. *)
Theorem parsed_only_when_authentic (req : Request) (text : string) :
  JSON_parse_call JSON text ∈ trace (route req) ->
  genuine req /\ text = Buffer_toString (raw req).
Proof.
  intros Hin. by_route_cases req; in_trace Hin;
    injection Hin as ->; now split.
Qed.

(** The only digest the route computes is the HMAC-SHA1 of the raw body
    under the secret, and only for a request with the four inputs. *)
Theorem digest_only_of_raw_body
  (req : Request) (algorithm key : string) (message : list byte) :
  hmac_digest JSON algorithm key message ∈ trace (route req) ->
  complete req
  /\ algorithm = "sha1" /\ key = secret_value /\ message = raw req.
Proof.
  intros Hin. by_route_cases req; in_trace Hin;
    injection Hin as -> -> ->;
    (split; [first [assumption | apply Hauth] | now repeat split]).
Qed.

(** A line is written to the console only for a request with the four
    inputs whose signature header has the length of the digest text and is
    not the digest text; the answer is then 400 [bad signature]. *)
Theorem logged_only_on_mismatch (req : Request) (line : string) :
  console_log JSON line ∈ trace (route req) ->
  complete req
  /\ String.length (text_of (eventSig req)) = 45
  /\ text_of (eventSig req) <> expected_signature secret_value (raw req)
  /\ line = mismatch_line req (expected_signature secret_value (raw req))
  /\ completion (route req) = Returns bad_signature.
Proof.
  intros Hin.
  by_route_cases req; in_trace Hin.
  injection Hin as ->.
  split; [exact Hreq|]. split; [exact Hlen|]. split; [exact Hne|].
  split; reflexivity.
Qed.

(** When the route answers, the answer is one of three: 400
    [missing parameter] for a request without the four inputs, 400
    [bad signature], or 200 with an empty body; and it is 200 only when the
    request is authentic and the handler, called with the parsed payload,
    has completed. *)
Theorem answers_of_the_route (req : Request) (res : Response) :
  completion (route req) = Returns res ->
  (res = missing_parameter /\ ~ complete req)
  \/ (res = bad_signature /\ complete req /\ ~ genuine req)
  \/ (res = ok
      /\ genuine req
      /\ exists payload,
           JSON_parse (Buffer_toString (raw req)) = Returns payload
           /\ handler (dispatch req payload) = Returns tt
           /\ handler_call JSON (dispatch req payload) ∈ trace (route req)).
Proof.
  intros Hres.
  by_route_cases req; try discriminate Hres.
  - injection Hres as <-. now left.
  - injection Hres as <-. right. left. split; [reflexivity|].
    split; [exact Hreq|]. intros [_ Heq]. contradiction.
  - destruct (handler (dispatch req payload)) as [[] | e] eqn:Hcall;
      [|discriminate Hres].
    injection Hres as <-. right. right. split; [reflexivity|].
    split; [exact Hauth|]. exists payload. repeat split; trivial.
    apply list_elem_of_In. simpl. auto.
Qed.

(** An error escapes the route in three ways only: the comparison of a
    signature header of another length than the digest text, the parse
    error of an authentic body that is not JSON, or the error raised by the
    handler on an authentic parsed delivery. *)
Theorem errors_of_the_route (req : Request) (e : JSError) :
  completion (route req) = Throws e ->
  (complete req
   /\ String.length (text_of (eventSig req)) <> 45
   /\ e = timingSafeEqual_length_error)
  \/ (genuine req /\ JSON_parse (Buffer_toString (raw req)) = Throws e)
  \/ (genuine req
      /\ exists payload,
           JSON_parse (Buffer_toString (raw req)) = Returns payload
           /\ handler (dispatch req payload) = Throws e).
Proof.
  intros Herr.
  by_route_cases req; try discriminate Herr.
  - injection Herr as <-. now left.
  - injection Herr as <-. right. now left.
  - destruct (handler (dispatch req payload)) as [[] | e'] eqn:Hcall;
      [discriminate Herr|].
    injection Herr as <-. right. right. split; [exact Hauth|].
    now exists payload.
Qed.

End GatewayCases.

(** ** The secret generator: replacement, identity, validation *)

Lemma number_eq_same (m n : JSNumber) :
  number_eq m n = true <-> Counts.same_number m n.
Proof.
  destruct m as [|a|p], n as [|b|q]; simpl;
    try (split; [discriminate | contradiction]).
  - destruct a, b; simpl; split; congruence.
  - apply QArith_base.Qeq_bool_iff.
Qed.

Lemma base64_encode_length (bs : list byte) :
  String.length (Base64.encode bs) = 4 * ((length bs + 2) / 3).
Proof.
  induction bs as [|a|a b|a b c rest IH] using list_ind3;
    try reflexivity.
  cbn [Base64.encode String.length length]. rewrite IH.
  replace (S (S (S (length rest))) + 2) with (1 * 3 + (length rest + 2))
    by lia.
  rewrite Nat.div_add_l by lia. lia.
Qed.

Lemma base64_encode_inj (bs bs' : list byte) :
  Base64.encode bs = Base64.encode bs' -> bs = bs'.
Proof.
  intros H. apply (f_equal Base64.decode) in H.
  rewrite !base64_decode_encode in H. now injection H.
Qed.

Section SecretLifecycle.

Import RandomProvider.

Variable StringToNumber : string -> JSNumber.

(** For a current and a proposed [byteCount] that are numbers, [diff] asks
    for a replacement of [byteCount] unless the two are the same number, and
    then returns no [replaces] at all. A [NaN] count is never the same, so
    it is always replaced. *)
Theorem secret_diff_replaces_unless_same_count
  (id : string) (olds news : gmap string JSValue) (m n : JSNumber) :
  diff id (<["byteCount" := JSNum m]> olds) (<["byteCount" := JSNum n]> news)
  = Promise_resolve
      {| dynamic.replaces :=
           if number_eq m n then None else Some ["byteCount"] |}
  /\ (number_eq m n = true <-> Counts.same_number m n)
  /\ number_eq NaN NaN = false.
Proof.
  split; [|split; [apply number_eq_same | reflexivity]].
  unfold diff, get, strict_neq. rewrite !lookup_insert_eq.
  cbv [default from_option Datatypes.id strict_eq].
  destruct (number_eq m n); reflexivity.
Qed.

(** The text [create] returns is 44 characters long, and two runs of
    [create] return the same result exactly when they drew the same 32
    bytes, whatever their inputs. *)
Theorem secret_value_determined_by_drawn_bytes
  (entropy entropy' : nat -> byte) (inputs inputs' : gmap string JSValue) :
  (exists res,
     create entropy inputs = ret res
     /\ String.length (dynamic.id res) = 44)
  /\ (create entropy inputs = create entropy' inputs'
      <-> randomBytes entropy 32 = randomBytes entropy' 32).
Proof.
  assert (Hlen : length (randomBytes entropy 32) = 32)
    by (unfold randomBytes; now rewrite length_map, length_seq).
  unfold create.
  generalize dependent (randomBytes entropy 32).
  generalize (randomBytes entropy' 32).
  intros bs' bs Hlen. split.
  - eexists. split; [reflexivity|]. cbn [dynamic.id].
    now rewrite base64_encode_length, Hlen.
  - split.
    + intros H. unfold ret in H. apply base64_encode_inj. congruence.
    + intros ->. reflexivity.
Qed.

(** [check] reports at most one failure: the missing-property one when
    [byteCount] is undefined; otherwise the not-positive one exactly when
    [byteCount] converts to a number, whatever its sign; the comparison with
    zero never decides. *)
Theorem secret_check_failures (olds news : gmap string JSValue) :
  check StringToNumber olds news
  = Promise_resolve
      {| dynamic.inputs := news;
         dynamic.failedChecks :=
           match get news "byteCount" with
           | JSUndefined =>
               [ {| dynamic.property := "byteCount";
                    dynamic.reason :=
                      "required property 'byteCount' missing" |} ]
           | v =>
               match ToNumber StringToNumber v with
               | NaN => []
               | _ =>
                   [ {| dynamic.property := "byteCount";
                        dynamic.reason :=
                          "'byteCount' should be a positive number" |} ]
               end
           end |}.
Proof.
  unfold check, isNaN, le_zero, push.
  destruct (get news "byteCount") as [| |b|n|s|r items] eqn:Hv;
    cbn [strict_eq app]; try reflexivity;
    try (destruct (ToNumber StringToNumber _); reflexivity).
Qed.

End SecretLifecycle.

(** ** The webhook registration provider: acceptance, scope, deletion *)

Section WebhookLifecycle.

Import GithubWebhookProvider.

Variable ghToken : string.
Variable octokit : ApiCall -> Completion AnyResponse.
Variable NumberToString : JSNumber -> string.
Variable JSON_stringify : AnyResponse -> string.

(** Decides the four tests of [check] and names the outcomes. *)
Local Ltac decide_tests news :=
  unfold check, strict_neq;
  destruct (strict_eq (get news "url") JSUndefined) eqn:Hurl;
  destruct (strict_eq (get news "org") JSUndefined) eqn:Horg;
  destruct (strict_eq (get news "owner") JSUndefined) eqn:Howner;
  destruct (strict_eq (get news "repo") JSUndefined) eqn:Hrepo;
  cbn [negb andb orb push app];
  repeat match goal with
  | H : strict_eq _ JSUndefined = true |- _ =>
      apply strict_eq_undefined in H
  | H : strict_eq _ JSUndefined = false |- _ =>
      apply strict_eq_defined in H
  end.

(** [check] reports nothing exactly when [url] is set, [org] is not set
    together with [owner] or [repo], and [owner] and [repo] are both set or
    both unset. A bag with [url] and no scope at all is accepted. *)
Theorem webhook_check_accepts (olds news : gmap string JSValue) :
  check olds news
  = Promise_resolve {| dynamic.inputs := news; dynamic.failedChecks := [] |}
  <-> get news "url" <> JSUndefined
      /\ (get news "org" = JSUndefined
          \/ get news "owner" = JSUndefined /\ get news "repo" = JSUndefined)
      /\ (get news "owner" = JSUndefined <-> get news "repo" = JSUndefined).
Proof.
  decide_tests news; unfold Promise_resolve, ret;
    (split;
     [ intros H; try discriminate H; tauto
     | intros (H1 & H2 & H3); try reflexivity; exfalso; tauto ]).
Qed.

(** [check] never reports more than three failures, and never both the one
    naming [repo] and the one naming [owner]. *)
Theorem webhook_check_at_most_three_failures
  (olds news : gmap string JSValue) :
  exists failures : list dynamic.CheckFailure,
    check olds news
    = Promise_resolve
        {| dynamic.inputs := news; dynamic.failedChecks := failures |}
    /\ length failures <= 3
    /\ ~ ("repo" ∈ map dynamic.property failures
          /\ "owner" ∈ map dynamic.property failures).
Proof.
  decide_tests news;
    (eexists; split; [reflexivity|]);
    cbn [map dynamic.property length];
    (split; [lia|]);
    intros [Hr Ho]; in_names.
Qed.

(** The call [create] issues for a bag. *)
Lemma webhook_create_runs (inputs : gmap string JSValue) :
  create ghToken octokit NumberToString JSON_stringify inputs
  = let call :=
      if truthy (get inputs "org") then
        orgs_createHook (get inputs "org") "web" (get inputs "events")
          {| content_type := "json";
             url := get inputs "url";
             secret := Some (get inputs "secret") |}
      else
        repos_createHook (get inputs "owner") (get inputs "repo") "web"
          (get inputs "events")
          {| content_type := "json";
             url := get inputs "url";
             secret := Some (get inputs "secret") |} in
    ([authenticate "token" ghToken; request call],
     match octokit call with
     | Returns res =>
         if (status res =? 201)%Z then
           Returns
             {| dynamic.id := ToString NumberToString (get (data res) "id");
                dynamic.outs := None |}
         else Throws (bad_response JSON_stringify res)
     | Throws e => Throws e
     end).
Proof.
  unfold create, emit, perform.
  destruct (truthy (get inputs "org")); cbn [bind app];
    (destruct (octokit _) as [res|e]; [|reflexivity]);
    destruct (status res =? 201)%Z; reflexivity.
Qed.

(** The call [delete] issues for a hook and a bag. *)
Lemma webhook_delete_runs (id : string) (props : gmap string JSValue) :
  delete ghToken octokit JSON_stringify id props
  = let call :=
      if truthy (get props "org") then orgs_deleteHook id (get props "org")
      else repos_deleteHook id (get props "owner") (get props "repo") in
    ([authenticate "token" ghToken; request call],
     match octokit call with
     | Returns res =>
         if (status res =? 204)%Z then Returns tt
         else Throws (bad_response JSON_stringify res)
     | Throws e => Throws e
     end).
Proof.
  unfold delete, emit, perform.
  destruct (truthy (get props "org")); cbn [bind app];
    (destruct (octokit _) as [res|e]; [|reflexivity]);
    destruct (status res =? 204)%Z; reflexivity.
Qed.

(** [delete] authenticates and issues one call: the organization hook
    deletion when the recorded [org] is truthy, the repository hook deletion
    otherwise, for the hook it is given. A rejected call propagates. An
    answer is accepted only with status 204: with any other status, 200
    included, [delete] raises an error that carries the whole response. *)
Theorem webhook_delete_endpoint_and_status
  (id : string) (props : gmap string JSValue) :
  let call :=
    if truthy (get props "org") then orgs_deleteHook id (get props "org")
    else repos_deleteHook id (get props "owner") (get props "repo") in
  delete ghToken octokit JSON_stringify id props
  = ([authenticate "token" ghToken; request call],
     match octokit call with
     | Returns res =>
         if (status res =? 204)%Z then Returns tt
         else
           Throws (mkError "Error" ("bad response: " +:+ JSON_stringify res))
     | Throws e => Throws e
     end).
Proof. exact (webhook_delete_runs id props). Qed.

(** On the same bag, [create] and [delete] address the same scope: both the
    organization named by [org], or both the repository named by [owner]
    and [repo]; [delete] is given the hook identifier it is called with. *)
Theorem webhook_create_and_delete_same_scope
  (id : string) (bag : gmap string JSValue) :
  exists created deleted : ApiCall,
    trace (create ghToken octokit NumberToString JSON_stringify bag)
    = [authenticate "token" ghToken; request created]
    /\ trace (delete ghToken octokit JSON_stringify id bag)
       = [authenticate "token" ghToken; request deleted]
    /\ ((exists events config,
           created = orgs_createHook (get bag "org") "web" events config
           /\ deleted = orgs_deleteHook id (get bag "org"))
        \/ (exists events config,
              created
              = repos_createHook (get bag "owner") (get bag "repo") "web"
                  events config
              /\ deleted
                 = repos_deleteHook id (get bag "owner") (get bag "repo"))).
Proof.
  rewrite webhook_create_runs, webhook_delete_runs. cbn zeta.
  do 2 eexists. split; [reflexivity|]. split; [reflexivity|].
  destruct (truthy (get bag "org")); [left | right];
    do 2 eexists; split; reflexivity.
Qed.

(** A bag that [check] accepts need not name a scope: with [url] set, an
    [org] that is unset or empty and neither [owner] nor [repo], [check]
    reports nothing and [create] calls the repository hook creation with an
    undefined owner and repository. *)
Theorem webhook_create_without_scope (olds inputs : gmap string JSValue) :
  get inputs "url" <> JSUndefined ->
  truthy (get inputs "org") = false ->
  get inputs "owner" = JSUndefined ->
  get inputs "repo" = JSUndefined ->
  check olds inputs
  = Promise_resolve
      {| dynamic.inputs := inputs; dynamic.failedChecks := [] |}
  /\ trace (create ghToken octokit NumberToString JSON_stringify inputs)
     = [authenticate "token" ghToken;
        request
          (repos_createHook JSUndefined JSUndefined "web"
             (get inputs "events")
             {| content_type := "json";
                url := get inputs "url";
                secret := Some (get inputs "secret") |})].
Proof.
  intros Hurl Horg Howner Hrepo. split.
  - unfold check, strict_neq. rewrite Howner, Hrepo.
    destruct (strict_eq (get inputs "url") JSUndefined) eqn:Hu.
    + apply strict_eq_undefined in Hu. contradiction.
    + cbn. now rewrite andb_false_r.
  - rewrite webhook_create_runs, Horg, Howner, Hrepo. reflexivity.
Qed.

(** When the answer to the creation has status 201 but holds no [id],
    [create] does not fail: it returns the text [undefined] as the
    identifier of the resource. *)
Theorem webhook_create_without_hook_id
  (inputs : gmap string JSValue) (call : ApiCall) (res : AnyResponse) :
  trace (create ghToken octokit NumberToString JSON_stringify inputs)
  = [authenticate "token" ghToken; request call] ->
  octokit call = Returns res ->
  status res = 201%Z ->
  data res !! "id" = None ->
  completion (create ghToken octokit NumberToString JSON_stringify inputs)
  = Returns {| dynamic.id := "undefined"; dynamic.outs := None |}.
Proof.
  rewrite webhook_create_runs. cbn zeta. cbn [trace completion fst snd].
  intros Htrace Hcall Hstatus Hid. injection Htrace as ->.
  rewrite Hcall, Hstatus. cbn. unfold get. now rewrite Hid.
Qed.

End WebhookLifecycle.

(** ** The component *)

Section ComponentFacts.

Import pulumi Assembly Declarations.

Context {JSON : Type}.
Variable JSON_parse : string -> Completion JSON.
Variable Buffer_from_base64 : string -> list byte.
Variable Buffer_toString : list byte -> string.

Local Abbreviation construct :=
  (new_GitHubWebhook JSON JSON_parse Buffer_from_base64 Buffer_toString).
Local Abbreviation the_route :=
  (fun args : GitHubWebhookArgs JSON =>
     {| path := "/";
        method := "POST";
        route_handler :=
          fun deployed_secret =>
            GitHubWebhook.routeHandler JSON JSON_parse Buffer_from_base64
              Buffer_toString deployed_secret (handler JSON args) |}).

Lemma for_of_declares {A : Type} (xs : list A) (n : A -> string)
  (a : A -> GitHubWebhookResourceArgs.GitHubWebhookResourceArgs)
  (parent : string) :
  for_of JSON xs (fun x => new_GitHubWebhookResource JSON (n x) (a x) parent)
  = (map (fun x => GitHubWebhookResource JSON (n x) (a x) parent) xs,
     Returns tt).
Proof.
  induction xs as [|x xs IH]; [reflexivity|].
  cbn [for_of map]. rewrite IH. reflexivity.
Qed.

(** What the constructor declares, and what it returns. *)
Lemma component_runs (name : string) (args : GitHubWebhookArgs JSON) :
  construct name args
  = match repositories JSON args, organizations JSON args with
    | None, None => ([], Throws refusal)
    | repos, orgs =>
        ([ComponentResource JSON "github:rest:Hook" name;
          RandomResource JSON (name +:+ "-secret")
            {[ "byteCount" := JSNum (Finite (QArith_base.Qmake 32 1));
               "value" := JSUndefined ]}
            name;
          API JSON "hook" [the_route args] name]
         ++ map (fun r =>
                   GitHubWebhookResource JSON
                     (of_repository name (events JSON args) r).1
                     (of_repository name (events JSON args) r).2 name)
              (default [] repos)
         ++ map (fun o =>
                   GitHubWebhookResource JSON
                     (of_organization name (events JSON args) o).1
                     (of_organization name (events JSON args) o).2 name)
              (default [] orgs),
         Returns {| resource := "hook"; output := "url" |})
    end.
Proof.
  unfold new_GitHubWebhook, new_RandomResource, new_API, emit.
  destruct (repositories JSON args) as [repos|],
    (organizations JSON args) as [orgs|];
    cbn [undefined andb bind app ret default map];
    try reflexivity.
  - rewrite !for_of_declares. cbn [bind ret]. now rewrite !app_nil_r.
  - rewrite !for_of_declares. cbn [bind ret app]. now rewrite !app_nil_r.
  - rewrite !for_of_declares. cbn [bind ret app]. now rewrite !app_nil_r.
Qed.


(** The resources the constructor declares when it does not refuse. *)
Lemma component_trace (name : string) (args : GitHubWebhookArgs JSON) :
  trace (construct name args)
  = match repositories JSON args, organizations JSON args with
    | None, None => []
    | repos, orgs =>
        [ComponentResource JSON "github:rest:Hook" name;
         RandomResource JSON (name +:+ "-secret")
           {[ "byteCount" := JSNum (Finite (QArith_base.Qmake 32 1));
              "value" := JSUndefined ]}
           name;
         API JSON "hook" [the_route args] name]
        ++ map (fun r =>
                  GitHubWebhookResource JSON
                    (of_repository name (events JSON args) r).1
                    (of_repository name (events JSON args) r).2 name)
             (default [] repos)
        ++ map (fun o =>
                  GitHubWebhookResource JSON
                    (of_organization name (events JSON args) o).1
                    (of_organization name (events JSON args) o).2 name)
             (default [] orgs)
    end.
Proof.
  rewrite component_runs.
  destruct (repositories JSON args), (organizations JSON args); reflexivity.
Qed.

Lemma registrations_app (ds ds' : list (Declared JSON)) :
  registrations (ds ++ ds') = registrations ds ++ registrations ds'.
Proof. apply omap_app. Qed.

Lemma registrations_map {A : Type} (xs : list A)
  (f : A -> string * GitHubWebhookResourceArgs.GitHubWebhookResourceArgs)
  (parent : string) :
  registrations
    (map (fun x => GitHubWebhookResource JSON (f x).1 (f x).2 parent) xs)
  = map f xs.
Proof.
  induction xs as [|x xs IH]; [reflexivity|].
  change
    (((f x).1, (f x).2)
     :: registrations
          (map (fun x => GitHubWebhookResource JSON (f x).1 (f x).2 parent)
             xs)
     = f x :: map f xs).
  rewrite IH. now destruct (f x).
Qed.

Lemma component_registrations (name : string) (args : GitHubWebhookArgs JSON) :
  registrations (trace (construct name args))
  = map (of_repository name (events JSON args))
      (default [] (repositories JSON args))
    ++ map (of_organization name (events JSON args))
         (default [] (organizations JSON args)).
Proof.
  rewrite component_trace.
  destruct (repositories JSON args) as [repos|] eqn:Hr,
    (organizations JSON args) as [orgs|] eqn:Ho;
    try reflexivity;
    rewrite !registrations_app,
      (registrations_map _ (of_repository name (events JSON args))),
      (registrations_map _ (of_organization name (events JSON args)));
    reflexivity.
Qed.

(** The constructor refuses, declaring nothing, exactly when neither list
    is given. Given a list, even an empty one, it declares the component
    first and returns the URL of the API named [hook]. *)
Theorem component_refuses_only_without_lists
  (name : string) (args : GitHubWebhookArgs JSON) :
  (repositories JSON args = None
   /\ organizations JSON args = None
   /\ construct name args = ([], Throws refusal))
  \/ ((repositories JSON args <> None \/ organizations JSON args <> None)
      /\ completion (construct name args)
         = Returns {| resource := "hook"; output := "url" |}
      /\ exists rest,
           trace (construct name args)
           = ComponentResource JSON "github:rest:Hook" name :: rest).
Proof.
  rewrite component_runs.
  destruct (repositories JSON args) as [repos|],
    (organizations JSON args) as [orgs|];
    [right | right | right | left; now repeat split];
    (split; [first [now left | now right]|]);
    (split; [reflexivity|]); eexists; reflexivity.
Qed.

(** The constructor declares one registration for each repository, in the
    order given, then one for each organization, in the order given, and no
    other: as many as the two lists hold together. Each is named after the
    component and its scope, names the repository or the organization and
    not both, and carries the events of the component, the [value] of the
    component's secret and the [url] of its API. *)
Theorem component_registers_each_scope
  (name : string) (args : GitHubWebhookArgs JSON) :
  registrations (trace (construct name args))
  = map (of_repository name (events JSON args))
      (default [] (repositories JSON args))
    ++ map (of_organization name (events JSON args))
         (default [] (organizations JSON args))
  /\ length (registrations (trace (construct name args)))
     = length (default [] (repositories JSON args))
       + length (default [] (organizations JSON args)).
Proof.
  rewrite component_registrations. split; [reflexivity|].
  now rewrite length_app, !length_map.
Qed.

(** Every registration the constructor declares is accepted by the
    provider's [check], whatever values the secret and the URL get when
    deployed. *)
Theorem component_registrations_pass_check
  (name : string) (args : GitHubWebhookArgs JSON)
  (registration :
     string * GitHubWebhookResourceArgs.GitHubWebhookResourceArgs)
  (deployed : Output -> string) (deployed_events : Output -> list string)
  (olds : gmap string JSValue) :
  registration ∈ registrations (trace (construct name args)) ->
  GithubWebhookProvider.check olds
    (props_of deployed deployed_events registration.2)
  = Promise_resolve
      {| dynamic.inputs := props_of deployed deployed_events registration.2;
         dynamic.failedChecks := [] |}.
Proof.
  rewrite component_registrations, elem_of_app, !list_elem_of_In, !in_map_iff.
  intros [(r & <- & _) | (o & <- & _)]; reflexivity.
Qed.

(** A repository and the organization whose name is the owner, a dash and
    the repository get the same resource name: a component given both
    declares two registrations under one name. *)
Theorem component_registration_names_collide
  (name : string) (args : GitHubWebhookArgs JSON) (r : GitHubRepository) :
  repositories JSON args = Some [r] ->
  organizations JSON args = Some [owner r +:+ "-" +:+ repo r] ->
  map fst (registrations (trace (construct name args)))
  = [name +:+ "-registration-" +:+ owner r +:+ "-" +:+ repo r;
     name +:+ "-registration-" +:+ owner r +:+ "-" +:+ repo r].
Proof.
  intros Hr Ho. rewrite component_registrations, Hr, Ho. reflexivity.
Qed.

(** The constructor declares one API only, under the name [hook] whatever
    the name of the component, with the single route [POST /], whose handler
    is the route handler of the gateway with the handler of the arguments. *)
Theorem component_api_is_named_hook
  (name : string) (args : GitHubWebhookArgs JSON)
  (api : string) (routes : list (Route JSON)) (parent : string) :
  API JSON api routes parent ∈ trace (construct name args) ->
  api = "hook" /\ parent = name /\ routes = [the_route args].
Proof.
  rewrite component_trace.
  destruct (repositories JSON args) as [repos|],
    (organizations JSON args) as [orgs|];
    rewrite ?elem_of_app, !list_elem_of_In, ?in_map_iff; cbn [In];
    intros H; decompose [or ex and] H; try discriminate; try contradiction;
    match goal with
    | Heq : API _ _ _ _ = API _ _ _ _ |- _ => injection Heq as <- <- <-
    end; now repeat split.
Qed.


End ComponentFacts.

(** ** The properties above on sample inputs *)

Import Authentication.

Local Abbreviation run := (Node.routeHandler Sample.secret Sample.quiet).
Local Abbreviation genuine :=
  (authentic Node.Buffer_from_base64 Sample.secret).
Local Abbreviation bytes_of := (raw_body Node.Buffer_from_base64).
Local Abbreviation text_of_body :=
  (fun req => Node.Buffer_toString (raw_body Node.Buffer_from_base64 req)).
Local Abbreviation zen := Scenario.zen_delivery.
Local Abbreviation forged := Scenario.forged_delivery.
Local Abbreviation cut := Scenario.cut_delivery.

(** The authentic sample delivery and its run. *)
Lemma zen_delivery_run :
  run zen
  = ([hmac_digest JSONText.value "sha1" Sample.secret
        (Bytes.of_string Sample.zen);
      JSON_parse_call JSONText.value Sample.zen;
      handler_call JSONText.value
        (dispatch zen Scenario.zen_payload)],
     Returns ok).
Proof. vm_compute. reflexivity. Qed.

Lemma handler_called_witness :
  let call := dispatch zen Scenario.zen_payload in
  handler_call JSONText.value call
    ∈ trace (run zen)
  /\ genuine zen
  /\ exists payload,
       JSONText.JSON_parse
         (text_of_body zen)
       = Returns payload
       /\ call = dispatch zen payload.
Proof.
  intros call.
  assert (Hin : handler_call JSONText.value call
                ∈ trace (run zen)).
  { rewrite zen_delivery_run. apply list_elem_of_In. simpl. auto. }
  split; [exact Hin|].
  exact (handler_called_only_when_authentic JSONText.JSON_parse
           Node.Buffer_from_base64 Node.Buffer_toString Sample.secret
           Sample.quiet zen call Hin).
Defined.

Lemma parsed_witness :
  JSON_parse_call JSONText.value Sample.zen
    ∈ trace (run zen)
  /\ genuine zen
  /\ Sample.zen
     = text_of_body zen.
Proof.
  assert (Hin : JSON_parse_call JSONText.value Sample.zen
                ∈ trace (run zen)).
  { rewrite zen_delivery_run. apply list_elem_of_In. simpl. auto. }
  split; [exact Hin|].
  exact (parsed_only_when_authentic JSONText.JSON_parse
           Node.Buffer_from_base64 Node.Buffer_toString Sample.secret
           Sample.quiet zen Sample.zen Hin).
Defined.

Lemma digest_witness :
  hmac_digest JSONText.value "sha1" Sample.secret (Bytes.of_string Sample.zen)
    ∈ trace (run zen)
  /\ complete zen
  /\ "sha1" = "sha1" /\ Sample.secret = Sample.secret
  /\ Bytes.of_string Sample.zen = bytes_of zen.
Proof.
  assert (Hin : hmac_digest JSONText.value "sha1" Sample.secret
                  (Bytes.of_string Sample.zen)
                ∈ trace (run zen)).
  { rewrite zen_delivery_run. apply list_elem_of_In. simpl. auto. }
  split; [exact Hin|].
  exact (digest_only_of_raw_body JSONText.JSON_parse
           Node.Buffer_from_base64 Node.Buffer_toString Sample.secret
           Sample.quiet zen "sha1" Sample.secret
           (Bytes.of_string Sample.zen) Hin).
Defined.

(** A delivery signed for another body: the header has the right length
    and is not the expected text. *)
Lemma mismatch_witness :
  let expected :=
    expected_signature Sample.secret (bytes_of forged) in
  (complete forged
   /\ String.length (text_of (eventSig forged)) = 45
   /\ text_of (eventSig forged) <> expected)
  /\ run forged
     = ([hmac_digest JSONText.value "sha1" Sample.secret
           (bytes_of forged);
         console_log JSONText.value (mismatch_line forged expected)],
        Returns {| statusCode := 400; response_body := "bad signature" |}).
Proof.
  intros expected.
  assert (Hreq : complete forged) by (vm_compute; auto).
  assert (Hlen : String.length (text_of (eventSig forged)) = 45)
    by (vm_compute; reflexivity).
  assert (Hne : text_of (eventSig forged) <> expected)
    by (apply String.eqb_neq; vm_compute; reflexivity).
  split; [now repeat split|].
  exact (wrong_signature_of_same_length_rejected JSONText.JSON_parse
           Node.Buffer_from_base64 Node.Buffer_toString Sample.secret
           Sample.quiet forged Hreq Hlen Hne).
Defined.

Lemma logged_witness :
  let expected :=
    expected_signature Sample.secret (bytes_of forged) in
  console_log JSONText.value (mismatch_line forged expected)
    ∈ trace (run forged)
  /\ complete forged
  /\ String.length (text_of (eventSig forged)) = 45
  /\ text_of (eventSig forged) <> expected
  /\ mismatch_line forged expected = mismatch_line forged expected
  /\ completion (run forged)
     = Returns bad_signature.
Proof.
  intros expected.
  assert (Hin : console_log JSONText.value (mismatch_line forged expected)
                ∈ trace (run forged)).
  { apply list_elem_of_In. vm_compute. auto. }
  split; [exact Hin|].
  exact (logged_only_on_mismatch JSONText.JSON_parse
           Node.Buffer_from_base64 Node.Buffer_toString Sample.secret
           Sample.quiet forged (mismatch_line forged expected) Hin).
Defined.

Lemma answers_witness :
  completion (run zen) = Returns ok
  /\ ((ok = missing_parameter /\ ~ complete zen)
      \/ (ok = bad_signature
          /\ complete zen
          /\ ~ genuine zen)
      \/ (ok = ok
          /\ genuine zen
          /\ exists payload,
               JSONText.JSON_parse
                 (text_of_body zen)
               = Returns payload
               /\ Sample.quiet (dispatch zen payload) = Returns tt
               /\ handler_call JSONText.value (dispatch zen payload)
                    ∈ trace
                        (run zen))).
Proof.
  assert (Hres : completion (run zen)
                 = Returns ok) by (now rewrite zen_delivery_run).
  split; [exact Hres|].
  exact (answers_of_the_route JSONText.JSON_parse
           Node.Buffer_from_base64 Node.Buffer_toString Sample.secret
           Sample.quiet zen ok Hres).
Defined.

Lemma errors_witness :
  let e := timingSafeEqual_length_error in
  completion (run cut) = Throws e
  /\ ((complete cut
       /\ String.length (text_of (eventSig cut)) <> 45
       /\ e = timingSafeEqual_length_error)
      \/ (genuine cut
          /\ JSONText.JSON_parse
               (text_of_body cut)
             = Throws e)
      \/ (genuine cut
          /\ exists payload,
               JSONText.JSON_parse
                 (text_of_body cut)
               = Returns payload
               /\ Sample.quiet (dispatch cut payload) = Throws e)).
Proof.
  intros e.
  assert (Herr : completion (run cut)
                 = Throws e) by (vm_compute; reflexivity).
  split; [exact Herr|].
  exact (errors_of_the_route JSONText.JSON_parse
           Node.Buffer_from_base64 Node.Buffer_toString Sample.secret
           Sample.quiet cut e Herr).
Defined.

Import GithubWebhookProvider.

Lemma create_without_scope_witness :
  (get Scenario.scopeless "url" <> JSUndefined
   /\ truthy (get Scenario.scopeless "org") = false
   /\ get Scenario.scopeless "owner" = JSUndefined
   /\ get Scenario.scopeless "repo" = JSUndefined)
  /\ check ∅ Scenario.scopeless
     = Promise_resolve
         {| dynamic.inputs := Scenario.scopeless;
            dynamic.failedChecks := [] |}
  /\ trace
       (create "t0k3n" Scenario.created_without_data (fun _ => "0")
          (fun _ => "{}") Scenario.scopeless)
     = [authenticate "token" "t0k3n";
        request
          (repos_createHook JSUndefined JSUndefined "web"
             (get Scenario.scopeless "events")
             {| content_type := "json";
                url := get Scenario.scopeless "url";
                secret := Some (get Scenario.scopeless "secret") |})].
Proof.
  assert (Hurl : get Scenario.scopeless "url" <> JSUndefined)
    by (vm_compute; discriminate).
  assert (Horg : truthy (get Scenario.scopeless "org") = false)
    by (vm_compute; reflexivity).
  assert (Howner : get Scenario.scopeless "owner" = JSUndefined)
    by (vm_compute; reflexivity).
  assert (Hrepo : get Scenario.scopeless "repo" = JSUndefined)
    by (vm_compute; reflexivity).
  split; [now repeat split|].
  exact (webhook_create_without_scope "t0k3n" Scenario.created_without_data
           (fun _ => "0") (fun _ => "{}") ∅ Scenario.scopeless
           Hurl Horg Howner Hrepo).
Defined.

Lemma create_without_hook_id_witness :
  let call :=
    repos_createHook JSUndefined JSUndefined "web"
      (get Scenario.scopeless "events")
      {| content_type := "json";
         url := get Scenario.scopeless "url";
         secret := Some (get Scenario.scopeless "secret") |} in
  let res := {| status := 201; data := ∅ |} in
  (trace
     (create "t0k3n" Scenario.created_without_data (fun _ => "0")
        (fun _ => "{}") Scenario.scopeless)
   = [authenticate "token" "t0k3n"; request call]
   /\ Scenario.created_without_data call = Returns res
   /\ status res = 201%Z
   /\ data res !! "id" = None)
  /\ completion
       (create "t0k3n" Scenario.created_without_data (fun _ => "0")
          (fun _ => "{}") Scenario.scopeless)
     = Returns {| dynamic.id := "undefined"; dynamic.outs := None |}.
Proof.
  intros call res.
  assert (Htrace :
    trace
      (create "t0k3n" Scenario.created_without_data (fun _ => "0")
         (fun _ => "{}") Scenario.scopeless)
    = [authenticate "token" "t0k3n"; request call])
    by (vm_compute; reflexivity).
  assert (Hcall : Scenario.created_without_data call = Returns res)
    by reflexivity.
  assert (Hstatus : status res = 201%Z) by reflexivity.
  assert (Hid : data res !! "id" = None) by reflexivity.
  split; [now repeat split|].
  exact (webhook_create_without_hook_id "t0k3n" Scenario.created_without_data
           (fun _ => "0") (fun _ => "{}") Scenario.scopeless call res
           Htrace Hcall Hstatus Hid).
Defined.

Import pulumi Assembly Declarations.

Lemma registrations_pass_check_witness :
  let registration := of_organization "ci" ["push"; "issues"] "ellismg-hooks" in
  let deployed := fun o : Output => resource o +:+ "." +:+ output o in
  registration ∈ registrations (trace (Scenario.construct "ci"))
  /\ check ∅ (props_of deployed (fun _ => []) registration.2)
     = Promise_resolve
         {| dynamic.inputs := props_of deployed (fun _ => []) registration.2;
            dynamic.failedChecks := [] |}.
Proof.
  intros registration deployed.
  assert (Hin : registration
                ∈ registrations (trace (Scenario.construct "ci"))).
  { apply list_elem_of_In. vm_compute. auto. }
  split; [exact Hin|].
  exact (component_registrations_pass_check JSONText.JSON_parse
           Node.Buffer_from_base64 Node.Buffer_toString "ci"
           Scenario.arguments registration deployed (fun _ => []) ∅ Hin).
Defined.

Lemma registration_names_collide_witness :
  let r := {| owner := "ellismg"; repo := "hooks" |} in
  (repositories JSONText.value Scenario.arguments = Some [r]
   /\ organizations JSONText.value Scenario.arguments
      = Some [owner r +:+ "-" +:+ repo r])
  /\ map fst (registrations (trace (Scenario.construct "ci")))
     = ["ci-registration-ellismg-hooks"; "ci-registration-ellismg-hooks"].
Proof.
  intros r.
  assert (Hr : repositories JSONText.value Scenario.arguments = Some [r])
    by reflexivity.
  assert (Ho : organizations JSONText.value Scenario.arguments
               = Some [owner r +:+ "-" +:+ repo r]) by reflexivity.
  split; [now split|].
  exact (component_registration_names_collide JSONText.JSON_parse
           Node.Buffer_from_base64 Node.Buffer_toString "ci"
           Scenario.arguments r Hr Ho).
Defined.

Lemma api_is_named_hook_witness :
  let route :=
    {| path := "/";
       method := "POST";
       route_handler :=
         fun deployed_secret =>
           Node.routeHandler deployed_secret Sample.quiet |} in
  API JSONText.value "hook" [route] "ci" ∈ trace (Scenario.construct "ci")
  /\ "hook" = "hook" /\ "ci" = "ci" /\ [route] = [route].
Proof.
  intros route.
  assert (Hin : API JSONText.value "hook" [route] "ci"
                ∈ trace (Scenario.construct "ci")).
  { apply list_elem_of_In. right. right. left. reflexivity. }
  split; [exact Hin|].
  exact (component_api_is_named_hook JSONText.JSON_parse
           Node.Buffer_from_base64 Node.Buffer_toString "ci"
           Scenario.arguments "hook" [route] "ci" Hin).
Defined.

